(** * DonPAPI MCP adapter ([mcp_server.py]): a shallow embedding

    The adapter translates a tool call (an operation name and a bundle of
    parameters) into a command line of the external [donpapi] executable,
    runs it, and keeps track of one background GUI process.

    Layout of the development:
    - [Py]: the fragment of Python values and [str] methods the adapter uses;
    - [Adapter]: the module-level configuration, [run_donpapi_command] and
      [call_tool], over an explicit machine state and an explicit record of
      what the operating system answers;
    - the vocabulary in which the properties are stated;
    - the properties of the argument vector, of the command runner and of
      the GUI process manager. *)

From Stdlib Require Import Ascii String.
From stdpp Require Import base option list gmap strings pretty.

Local Open Scope string_scope.
Local Open Scope list_scope.
Local Open Scope Z_scope.

(** ** Python values and exceptions *)

Module Py.

(** The values a parameter bundle carries: the scalar values of a decoded
    JSON document ([None], [bool], [int], [str]).  Floats and nested
    containers are left out, so a statement over [pyval] speaks of these
    four kinds of value only.  A character of a [string] stands for one code
    point below 256. *)
Inductive pyval : Type :=
  | VNone
  | VBool (b : bool)
  | VInt (z : Z)
  | VStr (s : string).

#[global] Instance pyval_eq_dec : EqDecision pyval.
Proof. solve_decision. Defined.

(** Exception classes that occur in the adapter.  All of them derive from
    [Exception]; [TimeoutExpired] is the class of [subprocess]. Signals
    delivered asynchronously to the interpreter are outside this model. *)
Inductive exc_class : Type :=
  | TimeoutExpired
  | AttributeError
  | TypeError
  | OtherException (name : string).

#[global] Instance exc_class_eq_dec : EqDecision exc_class.
Proof. solve_decision. Defined.

(** An exception object: its class and [str(e)]. *)
Record exc : Type := Exc { exc_cls : exc_class; exc_str : string }.

#[global] Instance exc_eq_dec : EqDecision exc.
Proof. solve_decision. Defined.

(** The outcome of evaluating an expression: a value or a raised exception. *)
Inductive res (A : Type) : Type :=
  | Ok (a : A)
  | Raise (e : exc).
Arguments Ok {A} a.
Arguments Raise {A} e.

Definition res_bind {A B} (r : res A) (k : A → res B) : res B :=
  match r with
  | Ok a => k a
  | Raise e => Raise e
  end.

(** [bool(v)]: the truth value of [v] in a condition. *)
Definition truthy (v : pyval) : bool :=
  match v with
  | VNone => false
  | VBool b => b
  | VInt z => negb (z =? 0)
  | VStr s => negb (String.eqb s "")
  end.

(** [type(v).__name__], as it appears in messages. *)
Definition type_name (v : pyval) : string :=
  match v with
  | VNone => "NoneType"
  | VBool _ => "bool"
  | VInt _ => "int"
  | VStr _ => "str"
  end.

(** [str(v)], which is also what an f-string field [{v}] renders.  For an
    [int] beyond the interpreter's limit on digits the interpreter raises
    [ValueError] instead: see [str_defined] below. *)
Definition str (v : pyval) : string :=
  match v with
  | VNone => "None"
  | VBool true => "True"
  | VBool false => "False"
  | VInt z => pretty z
  | VStr s => s
  end.

(** [c.isspace()] for a code point below 256. *)
Definition isspace (c : ascii) : bool :=
  let n := nat_of_ascii c in
  ((9 <=? n) && (n <=? 13))%nat || ((28 <=? n) && (n <=? 32))%nat
  || (n =? 133)%nat || (n =? 160)%nat.

(** [s.split()] without separator: the maximal runs of characters that are
    not white space, in order.  [w] holds the current run, reversed. *)
Fixpoint split_go (w : list ascii) (s : list ascii) : list string :=
  match s with
  | [] =>
      match w with
      | [] => []
      | _ :: _ => [string_of_list_ascii (rev w)]
      end
  | c :: s' =>
      if isspace c then
        match w with
        | [] => split_go [] s'
        | _ :: _ => string_of_list_ascii (rev w) :: split_go [] s'
        end
      else split_go (c :: w) s'
  end.

Definition split (s : string) : list string :=
  split_go [] (list_ascii_of_string s).

(** The method call [v.split()]: only a [str] has the attribute. *)
Definition call_split (v : pyval) : res (list pyval) :=
  match v with
  | VStr s => Ok (VStr <$> split s)
  | _ =>
      Raise (Exc AttributeError
               ("'" +:+ type_name v +:+ "' object has no attribute 'split'"))
  end.

(** [sep.join(l)] on strings. *)
Fixpoint join (sep : string) (l : list string) : string :=
  match l with
  | [] => ""
  | [s] => s
  | s :: l' => s +:+ sep +:+ join sep l'
  end.

(** [sep.join(l)] on values: an item that is not a [str] raises
    [TypeError], naming the first such item. *)
Fixpoint join_items (i : nat) (l : list pyval) : res (list string) :=
  match l with
  | [] => Ok []
  | VStr s :: l' => res_bind (join_items (S i) l') (λ ss, Ok (s :: ss))
  | v :: _ =>
      Raise (Exc TypeError
               ("sequence item " +:+ pretty i +:+ ": expected str instance, "
                +:+ type_name v +:+ " found"))
  end.

Definition call_join (sep : string) (l : list pyval) : res string :=
  res_bind (join_items 0 l) (λ ss, Ok (join sep ss)).

(** [int(s)] in base ten: surrounding white space is dropped, then an
    optional sign, then digits, single underscores allowed between digits.
    [None] stands for [ValueError]. *)
Definition is_digit (c : ascii) : bool :=
  let n := nat_of_ascii c in ((48 <=? n) && (n <=? 57))%nat.

Definition digit_val (c : ascii) : Z := Z.of_nat (nat_of_ascii c) - 48.

(** [after_digit] says whether the previous character was a digit, the only
    place where an underscore or the end of the literal is accepted. *)
Fixpoint int_digits (acc : Z) (after_digit : bool) (s : list ascii) : option Z :=
  match s with
  | [] => if after_digit then Some acc else None
  | c :: s' =>
      if is_digit c then int_digits (10 * acc + digit_val c) true s'
      else if (nat_of_ascii c =? 95)%nat && after_digit then
        int_digits acc false s'
      else None
  end.

(** The white space [int] drops around a numeral.  The ASCII white space
    of C (code points 9 to 13 and 32) is skipped by the parser; the two
    white-space code points from 127 up (133 and 160) are turned into
    spaces before parsing; code points 28 to 31, which [isspace] accepts,
    are left in place and make the numeral invalid. *)
Definition int_space (c : ascii) : bool :=
  let n := nat_of_ascii c in
  ((9 <=? n) && (n <=? 13))%nat || (n =? 32)%nat
  || (n =? 133)%nat || (n =? 160)%nat.

Fixpoint lstrip (s : list ascii) : list ascii :=
  match s with
  | c :: s' => if int_space c then lstrip s' else s
  | [] => []
  end.

Definition strip (s : list ascii) : list ascii :=
  rev (lstrip (rev (lstrip s))).

(** The interpreter's limit on the digits of a numeral converted to or
    from [str] (its default, CPython 3.11 and later). *)
Definition int_max_str_digits : Z := 4300.

(** A numeral with more digits than the limit raises, leading zeros
    counted. *)
Definition int (s : string) : option Z :=
  let l := strip (list_ascii_of_string s) in
  if int_max_str_digits <? Z.of_nat (length (List.filter is_digit l)) then None
  else
    match l with
    | c :: s' =>
        if (nat_of_ascii c =? 45)%nat then Z.opp <$> int_digits 0 false s'
        else if (nat_of_ascii c =? 43)%nat then int_digits 0 false s'
        else int_digits 0 false (c :: s')
    | [] => None
    end.

(** [str(v)] is defined: an [int] of more than [int_max_str_digits] digits
    makes the interpreter raise [ValueError] instead.  [str] above gives the
    rendering for every integer; it is the interpreter's where this
    holds. *)
Definition str_defined (v : pyval) : Prop :=
  match v with
  | VInt z => Z.abs z < 10 ^ int_max_str_digits
  | _ => True
  end.

#[global] Instance str_defined_dec v : Decision (str_defined v).
Proof. destruct v; simpl; apply _. Defined.

End Py.

Import Py.

(** ** The adapter *)

Module Adapter.

(** A Python [dict] with string keys: the parameter bundle of a call and the
    result of the command runner. *)
Abbreviation dict := (gmap string pyval).

(** [mcp.types.TextContent]. *)
Record TextContent : Type := { type : string; text : string }.

#[global] Instance TextContent_eq_dec : EqDecision TextContent.
Proof. solve_decision. Defined.

(** *** What the operating system and the library answer

    [subprocess_run cmd timeout] is the outcome of
    [subprocess.run(cmd, capture_output=True, text=True, timeout=timeout)];
    [Popen cmd] is [None] when [subprocess.Popen(cmd, ...)] returns a
    process object and the raised exception otherwise; [json_dumps] is
    [json.dumps(_, indent=2)]. *)
Inductive run_outcome : Type :=
  | Completed (returncode : Z) (stdout stderr : string)
  | RunRaises (e : exc).

Record os_env : Type := {
  subprocess_run : list pyval → Z → run_outcome;
  Popen : list pyval → option exc;
  json_dumps : dict → string
}.

(** *** Module-level configuration *)

Definition OUTPUT_DIR (environ : gmap string string) : string :=
  default "/root/.donpapi/loot" (environ !! "DONPAPI_OUTPUT").

(** [None] when [int] raises, in which case the module does not load. *)
Definition GUI_PORT (environ : gmap string string) : option Z :=
  int (default "8088" (environ !! "DONPAPI_GUI_PORT")).

(** *** Machine state

    A process object is identified by its index in [procs], the children
    spawned with [Popen] in order of creation.  [p_returncode] is [None]
    while the child runs.  [terminate_calls] records the objects on which
    [terminate()] was called.  [gui_process] is the module's global. *)
Record process : Type := { p_args : list pyval; p_returncode : option Z }.

Record machine : Type := {
  gui_process : option nat;
  procs : list process;
  terminate_calls : list nat
}.

Definition initial : machine :=
  {| gui_process := None; procs := []; terminate_calls := [] |}.

(** Statements of [call_tool]: a state transformer that may raise.  An
    exception keeps the state reached so far. *)
Definition M (A : Type) : Type := machine → res A * machine.

#[global] Instance res_ret : MRet res := λ A a, Ok a.
#[global] Instance res_mbind : MBind res := λ A B k r, res_bind r k.

#[global] Instance M_ret : MRet M := λ A a σ, (Ok a, σ).

#[global] Instance M_bind : MBind M := λ A B k m σ,
  match m σ with
  | (Ok a, σ') => k a σ'
  | (Raise e, σ') => (Raise e, σ')
  end.

Definition lift {A} (r : res A) : M A := λ σ, (r, σ).

(** [try: m  except Exception as e: handler e]. *)
Definition try_except {A} (m : M A) (handler : exc → M A) : M A := λ σ,
  match m σ with
  | (Ok a, σ') => (Ok a, σ')
  | (Raise e, σ') => handler e σ'
  end.

Definition get_gui_process : M (option nat) := λ σ, (Ok (gui_process σ), σ).

Definition set_gui_process (g : option nat) : M unit := λ σ,
  (Ok (), {| gui_process := g; procs := procs σ;
             terminate_calls := terminate_calls σ |}).

(** [p.poll()]: the return code if the child has exited, else [None]. *)
Definition poll (h : nat) : M (option Z) := λ σ,
  (Ok (procs σ !! h ≫= p_returncode), σ).

(** [p.terminate()]. *)
Definition terminate (h : nat) : M unit := λ σ,
  (Ok (), {| gui_process := gui_process σ; procs := procs σ;
             terminate_calls := terminate_calls σ ++ [h] |}).

(** [subprocess.Popen(cmd, stdout=PIPE, stderr=PIPE, text=True)]. *)
Definition call_Popen (E : os_env) (cmd : list pyval) : M nat := λ σ,
  match Popen E cmd with
  | Some e => (Raise e, σ)
  | None =>
      (Ok (length (procs σ)),
       {| gui_process := gui_process σ;
          procs := procs σ ++ [{| p_args := cmd; p_returncode := None |}];
          terminate_calls := terminate_calls σ |})
  end.

(** *** [run_donpapi_command] *)

Definition run_donpapi_command (E : os_env) (args : list pyval)
    (timeout : option Z) : res dict :=
  let timeout := default 600 timeout in
  let body : res dict :=
    let cmd := VStr "donpapi" :: args in
    match subprocess_run E cmd timeout with
    | RunRaises e => Raise e
    | Completed returncode stdout stderr =>
        command ← call_join " " cmd;
        Ok ({[ "success" := VBool (returncode =? 0);
               "stdout" := VStr stdout;
               "stderr" := VStr stderr;
               "command" := VStr command ]} : dict)
    end in
  match body with
  | Ok result => Ok result
  | Raise e =>
      match exc_cls e with
      | TimeoutExpired =>
          Ok ({[ "success" := VBool false;
                 "error" := VStr ("Command timed out after "
                                  +:+ str (VInt timeout) +:+ "s") ]} : dict)
      | _ =>
          Ok ({[ "success" := VBool false; "error" := VStr (exc_str e) ]} : dict)
      end
  end.

(** *** [call_tool] *)

Definition text_content (s : string) : TextContent :=
  {| type := "text"; text := s |}.

(** The argument vector of the collect operation (the statements of the
    [donpapi_collect] branch that build [args]). *)
Definition collect_args (arguments : dict) : res (list pyval) :=
  let args := [VStr "collect"] in
  let args :=
    match arguments !! "username" with
    | Some v => args ++ [VStr "-u"; v]
    | None => args
    end in
  let args :=
    match arguments !! "password" with
    | Some v => args ++ [VStr "-p"; v]
    | None => args
    end in
  let args :=
    match arguments !! "domain" with
    | Some v => args ++ [VStr "-d"; v]
    | None => args
    end in
  let args :=
    match arguments !! "hashes" with
    | Some v => args ++ [VStr "-H"; v]
    | None => args
    end in
  let args :=
    if truthy (default VNone (arguments !! "use_kerberos"))
    then args ++ [VStr "-k"] else args in
  args ←
    match arguments !! "targets" with
    | Some v => toks ← call_split v; Ok (args ++ ([VStr "-t"] ++ toks))
    | None => Ok args
    end;
  let args :=
    match arguments !! "collectors" with
    | Some v => args ++ [VStr "-c"; v]
    | None => args
    end in
  let args :=
    match arguments !! "threads" with
    | Some v => args ++ [VStr "--threads"; VStr (str v)]
    | None => args
    end in
  Ok args.

(** [gui_process and gui_process.poll() is None]. *)
Definition gui_is_alive : M bool :=
  g ← get_gui_process;
  match g with
  | None => mret false
  | Some h =>
      rc ← poll h;
      mret (match rc with None => true | Some _ => false end)
  end.

Definition start_gui_cmd (bind port : pyval) : list pyval :=
  [VStr "donpapi"; VStr "gui"; VStr "--bind"; bind; VStr "--port";
   VStr (str port)].

Definition call_tool (E : os_env) (GUI_PORT : Z) (name : string)
    (arguments : dict) : M (list TextContent) :=
  if decide (name = "donpapi_collect") then
    args ← lift (collect_args arguments);
    result ← lift (run_donpapi_command E args None);
    mret [text_content (json_dumps E result)]
  else if decide (name = "donpapi_start_gui") then
    alive ← gui_is_alive;
    if (alive : bool) then mret [text_content "GUI is already running."]
    else
      let port := default (VInt GUI_PORT) (arguments !! "port") in
      let bind := default (VStr "0.0.0.0") (arguments !! "bind") in
      let cmd := start_gui_cmd bind port in
      try_except
        (h ← call_Popen E cmd;
         set_gui_process (Some h);;
         mret [text_content ("DonPAPI GUI started on http://" +:+ str bind
                            +:+ ":" +:+ str port)])
        (λ e, mret [text_content ("Failed to start GUI: " +:+ exc_str e)])
  else if decide (name = "donpapi_stop_gui") then
    g ← get_gui_process;
    match g with
    | Some h =>
        terminate h;;
        set_gui_process None;;
        mret [text_content "DonPAPI GUI stopped."]
    | None => mret [text_content "GUI is not running."]
    end
  else mret [text_content ("Unknown tool: " +:+ name)].

(** *** Runs of the adapter

    Between two calls a running child may exit on its own. *)
Definition exit_process (h : nat) (code : Z) (σ : machine) : machine :=
  {| gui_process := gui_process σ;
     procs := alter (λ p, {| p_args := p_args p; p_returncode := Some code |})
                    h (procs σ);
     terminate_calls := terminate_calls σ |}.

Inductive step : machine → machine → Prop :=
  | step_call E port name arguments σ r σ' :
      call_tool E port name arguments σ = (r, σ') →
      step σ σ'
  | step_exit h code p σ :
      procs σ !! h = Some p →
      p_returncode p = None →
      step σ (exit_process h code σ).

Definition reachable (σ : machine) : Prop := rtc step initial σ.

End Adapter.

Import Adapter.

(** ** The tool registry ([list_tools]) *)

Module Registry.

(** One entry of ["properties"] in a JSON schema: its ["type"], and the
    ["description"] and ["default"] keys where the source gives them. *)
Record property_schema : Type := {
  prop_type : string;
  prop_description : option string;
  prop_default : option pyval
}.

#[global] Instance property_schema_eq_dec : EqDecision property_schema.
Proof. solve_decision. Defined.

(** An [inputSchema]: ["type"], ["properties"] in the order of the source,
    and ["required"] where the source gives it. *)
Record input_schema : Type := {
  schema_type : string;
  properties : list (string * property_schema);
  required : option (list string)
}.

#[global] Instance input_schema_eq_dec : EqDecision input_schema.
Proof. solve_decision. Defined.

(** [mcp.types.Tool]. *)
Record Tool : Type := {
  name : string;
  description : string;
  inputSchema : input_schema
}.

#[global] Instance Tool_eq_dec : EqDecision Tool.
Proof. solve_decision. Defined.

(** The two shapes of entry the source writes: a type with a description,
    and a type with a default. *)
Definition described (ty desc : string) : property_schema :=
  {| prop_type := ty; prop_description := Some desc; prop_default := None |}.

Definition defaulted (ty : string) (d : pyval) : property_schema :=
  {| prop_type := ty; prop_description := None; prop_default := Some d |}.

Definition list_tools : list Tool :=
  [ {| name := "donpapi_collect";
       description := "Collect secrets from remote targets";
       inputSchema :=
         {| schema_type := "object";
            properties :=
              [ ("targets",
                 described "string"
                   "Target IP(s), range(s), hostname(s), or 'ALL' for domain scan. Space separated.");
                ("domain", described "string" "Target Domain");
                ("username", described "string" "Username for authentication");
                ("password", described "string" "Password for authentication");
                ("hashes", described "string" "NTLM hashes (LMHASH:NTHASH)");
                ("use_kerberos",
                 described "boolean" "Use Kerberos authentication (-k)");
                ("collectors",
                 described "string"
                   "Specific collectors (e.g. 'Chromium,Firefox'). Default: All");
                ("threads", defaulted "integer" (VInt 50)) ];
            required := Some ["targets"; "username"] |} |};
    {| name := "donpapi_start_gui";
       description := "Start DonPAPI Web GUI to browse collected secrets";
       inputSchema :=
         {| schema_type := "object";
            properties :=
              [ ("port", defaulted "integer" (VInt 8088));
                ("bind", defaulted "string" (VStr "0.0.0.0")) ];
            required := None |} |};
    {| name := "donpapi_stop_gui";
       description := "Stop DonPAPI Web GUI";
       inputSchema :=
         {| schema_type := "object"; properties := []; required := None |} |} ].

End Registry.

(** * Vocabulary of the properties *)

(** ** The collect argument vector, group by group *)

(** The tokens one flag contributes: the flag and the value of its key. *)
Definition flag_group (a : dict) (key flag : string) : list pyval :=
  match a !! key with
  | Some v => [VStr flag; v]
  | None => []
  end.

Definition kerberos_group (a : dict) : list pyval :=
  if truthy (default VNone (a !! "use_kerberos")) then [VStr "-k"] else [].

Definition target_tokens (a : dict) : list pyval :=
  match a !! "targets" with
  | Some (VStr s) => VStr <$> split s
  | _ => []
  end.

Definition targets_group (a : dict) : list pyval :=
  match a !! "targets" with
  | Some _ => VStr "-t" :: target_tokens a
  | None => []
  end.

Definition threads_group (a : dict) : list pyval :=
  match a !! "threads" with
  | Some v => [VStr "--threads"; VStr (str v)]
  | None => []
  end.

(** The vector as the specification words it: the subcommand, then one
    group per parameter, in the fixed order.  [collect_args] above follows
    the statements of the source; the two are compared below. *)
Definition collect_vector (a : dict) : list pyval :=
  [VStr "collect"]
  ++ flag_group a "username" "-u"
  ++ flag_group a "password" "-p"
  ++ flag_group a "domain" "-d"
  ++ flag_group a "hashes" "-H"
  ++ kerberos_group a
  ++ targets_group a
  ++ flag_group a "collectors" "-c"
  ++ threads_group a.

(** The schema declares [targets] a string. *)
Definition targets_is_str (a : dict) : Prop :=
  ∀ v, a !! "targets" = Some v → ∃ s, v = VStr s.

(** The flags of the collect subcommand, and the parameter each stands for. *)
Definition param_flags : list (string * string) :=
  [("username", "-u"); ("password", "-p"); ("domain", "-d");
   ("hashes", "-H"); ("use_kerberos", "-k"); ("targets", "-t");
   ("collectors", "-c"); ("threads", "--threads")].

Definition is_flag (v : pyval) : Prop :=
  match v with
  | VStr s => s ∈ param_flags.*2
  | _ => False
  end.

#[global] Instance is_flag_dec v : Decision (is_flag v).
Proof. destruct v; simpl; apply _. Defined.

(** The tokens of the vector that come from the caller's values. *)
Definition caller_tokens (a : dict) : list pyval :=
  option_list (a !! "username")
  ++ option_list (a !! "password")
  ++ option_list (a !! "domain")
  ++ option_list (a !! "hashes")
  ++ target_tokens a
  ++ option_list (a !! "collectors")
  ++ option_list ((λ v, VStr (str v)) <$> a !! "threads").

(** The flags a bundle calls for, in order: one per key that is present,
    and [-k] when [use_kerberos] holds a true value. *)
Definition if_present (a : dict) (key flag : string) : list pyval :=
  if decide (is_Some (a !! key)) then [VStr flag] else [].

Definition expected_flags (a : dict) : list pyval :=
  if_present a "username" "-u"
  ++ if_present a "password" "-p"
  ++ if_present a "domain" "-d"
  ++ if_present a "hashes" "-H"
  ++ kerberos_group a
  ++ if_present a "targets" "-t"
  ++ if_present a "collectors" "-c"
  ++ if_present a "threads" "--threads".

(** The reading under which every flag, [-k] included, follows the presence
    of its key. *)
Definition flags_follow_keys (a : dict) (args : list pyval) : Prop :=
  ∀ key flag, (key, flag) ∈ param_flags →
    (VStr flag ∈ args ↔ is_Some (a !! key)).

(** ** Results and sample inputs *)

#[global] Instance res_fmap : FMap res := λ A B f r,
  match r with
  | Ok a => Ok (f a)
  | Raise e => Raise e
  end.

(** A concrete environment for examples: every command exits with code 0
    and prints nothing, every spawn succeeds. *)
Definition quiet_env : os_env :=
  {| subprocess_run := λ _ _, Completed 0 "" "";
     Popen := λ _, None;
     json_dumps := λ _, "{}" |}.

(** The bundle of the specification's examples. *)
Definition sample_bundle : dict :=
  {[ "targets" := VStr "10.0.0.1 10.0.0.2"; "username" := VStr "admin";
     "use_kerberos" := VBool true; "threads" := VInt 50 ]}.

(** A schema-conforming bundle in which the Kerberos key is present and
    false. *)
Definition no_kerberos_bundle : dict :=
  {[ "targets" := VStr "10.0.0.1"; "username" := VStr "admin";
     "use_kerberos" := VBool false ]}.

(** ** Around the Kerberos flag *)

(** What precedes and what follows the place of [-k] in the vector. *)
Definition auth_part (a : dict) : list pyval :=
  [VStr "collect"]
  ++ flag_group a "username" "-u"
  ++ flag_group a "password" "-p"
  ++ flag_group a "domain" "-d"
  ++ flag_group a "hashes" "-H".

Definition options_part (a : dict) : list pyval :=
  targets_group a ++ flag_group a "collectors" "-c" ++ threads_group a.

(** ** Command runner *)

(** Every argument after a single space. *)
Fixpoint spaced (args : list string) : string :=
  match args with
  | [] => ""
  | x :: args' => " " +:+ x +:+ spaced args'
  end.

(** The result of a failed run. *)
Definition failure (msg : string) : dict :=
  {[ "success" := VBool false; "error" := VStr msg ]}.

(** An environment in which the tool exits with code 2 after printing. *)
Definition failing_env : os_env :=
  {| subprocess_run := λ _ _, Completed 2 "" "usage: donpapi";
     Popen := λ _, None;
     json_dumps := λ _, "{}" |}.

(** ** GUI process manager *)

(** [h.poll() is None]: the process object [h] has not exited. *)
Definition alive (σ : machine) (h : nat) : Prop :=
  procs σ !! h ≫= p_returncode = None.

(** [h.poll()] gives a return code: the child has exited. *)
Definition exited (σ : machine) (h : nat) : Prop :=
  ∃ code, procs σ !! h ≫= p_returncode = Some code.

(** The value of the guard of [donpapi_start_gui]. *)
Definition guard (σ : machine) : bool :=
  match gui_process σ with
  | None => false
  | Some h =>
      match procs σ !! h ≫= p_returncode with
      | None => true
      | Some _ => false
      end
  end.

(** The state after a successful spawn of [cmd], and after a stop of [h]. *)
Definition started (cmd : list pyval) (σ : machine) : machine :=
  {| gui_process := Some (length (procs σ));
     procs := procs σ ++ [{| p_args := cmd; p_returncode := None |}];
     terminate_calls := terminate_calls σ |}.

Definition stopped (h : nat) (σ : machine) : machine :=
  {| gui_process := None;
     procs := procs σ;
     terminate_calls := terminate_calls σ ++ [h] |}.

(** The parameters of a start, with their defaults. *)
Definition bind_of (a : dict) : pyval := default (VStr "0.0.0.0") (a !! "bind").
Definition port_of (GUI_PORT : Z) (a : dict) : pyval :=
  default (VInt GUI_PORT) (a !! "port").

Definition started_message (bind port : pyval) : string :=
  "DonPAPI GUI started on http://" +:+ str bind +:+ ":" +:+ str port.

(** The tracked handle names a spawned process, and a spawned process that
    still runs and was never asked to terminate is the tracked one. *)
Definition single_instance (σ : machine) : Prop :=
  (∀ h, gui_process σ = Some h → (h < length (procs σ))%nat)
  ∧ (∀ h, (h < length (procs σ))%nat → alive σ h →
          h ∉ terminate_calls σ → gui_process σ = Some h).

(** ** Sample machines *)

(** The command line of a start with no parameters. *)
Definition default_gui_cmd : list pyval :=
  start_gui_cmd (VStr "0.0.0.0") (VInt 8088).

(** After one successful start: process 0 runs and is tracked. *)
Definition running_machine : machine := started default_gui_cmd initial.

(** The GUI process then exits on its own: the handle stays tracked. *)
Definition stale_machine : machine := exit_process 0 1 running_machine.

(** An environment without the executable. *)
Definition missing_exe : exc :=
  Exc (OtherException "FileNotFoundError")
      "[Errno 2] No such file or directory: 'donpapi'".

Definition no_exe_env : os_env :=
  {| subprocess_run := λ _ _, RunRaises missing_exe;
     Popen := λ _, Some missing_exe;
     json_dumps := λ _, "{}" |}.

(** No tracked process is alive: none is tracked, or the tracked one has
    exited. *)
Definition no_live_gui (σ : machine) : Prop :=
  gui_process σ = None ∨ ∃ h, gui_process σ = Some h ∧ exited σ h.

(** The reading of C7 under which a failed spawn leaves the handle unset. *)
Definition failed_start_leaves_unset : Prop :=
  ∀ (E : os_env) (port : Z) (a : dict) (σ : machine) (e : exc),
    reachable σ → no_live_gui σ →
    Popen E (start_gui_cmd (bind_of a) (port_of port a)) = Some e →
    gui_process (call_tool E port "donpapi_start_gui" a σ).2 = None.

(** ** Words, registry and defaults *)

(** The characters of [s] are all white space; none is. *)
Definition all_space (s : string) : Prop :=
  Forall (λ c, isspace c = true) (list_ascii_of_string s).

Definition no_space (s : string) : Prop :=
  Forall (λ c, isspace c = false) (list_ascii_of_string s).

(** A word: not empty, and free of white space. *)
Definition word (s : string) : Prop := s ≠ "" ∧ no_space s.

(** The names the registry announces, and the parameters a tool declares. *)
Definition tool_names : list string := Registry.name <$> Registry.list_tools.

Definition declared (t : Registry.Tool) : list string :=
  (Registry.properties (Registry.inputSchema t)).*1.

(** The bundle [a] completed with the defaults the schema of [t] declares
    for the parameters that [a] leaves out. *)
Definition apply_defaults (t : Registry.Tool) (a : dict) : dict :=
  foldr (λ kp acc,
           match Registry.prop_default kp.2, a !! kp.1 with
           | Some d, None => <[kp.1 := d]> acc
           | _, _ => acc
           end)
        a (Registry.properties (Registry.inputSchema t)).

(** The answer of the dispatch to a name it does not know. *)
Definition unknown_answer (name : string) : list TextContent :=
  [text_content ("Unknown tool: " +:+ name)].

(** Values of [use_kerberos] that count as false: the key absent, [None],
    [False], the integer 0, the empty string. *)
Definition falsy_values : list (option pyval) :=
  [None; Some VNone; Some (VBool false); Some (VInt 0); Some (VStr "")].

(** What holds of the termination requests in every state the adapter
    reaches. *)
Definition terminate_discipline (σ : machine) : Prop :=
  NoDup (terminate_calls σ)
  ∧ (∀ h, h ∈ terminate_calls σ → (h < length (procs σ))%nat)
  ∧ (∀ h, gui_process σ = Some h →
          (h ∉ terminate_calls σ) ∧ (h < length (procs σ))%nat).

(** Every spawned process runs the GUI subcommand. *)
Definition gui_command_lines (σ : machine) : Prop :=
  ∀ p, p ∈ procs σ →
    ∃ bind port : pyval,
      p_args p = [VStr "donpapi"; VStr "gui"; VStr "--bind"; bind;
                  VStr "--port"; VStr (str port)].

(** ** Readings and sample inputs for the Kerberos flag *)

(** The reading of C9 under which a [use_kerberos] that is false or absent
    leaves no [-k] token anywhere in the vector. *)
Definition no_k_unless_kerberos : Prop :=
  ∀ (a : dict) (args : list pyval),
    targets_is_str a →
    a !! "use_kerberos" = Some (VBool false) ∨ a !! "use_kerberos" = None →
    collect_args a = Ok args →
    VStr "-k" ∉ args.

(** A schema-conforming bundle without [use_kerberos], one word of whose
    [targets] is [-k]. *)
Definition k_in_targets_bundle : dict :=
  {[ "targets" := VStr "10.0.0.1 -k"; "username" := VStr "admin" ]}.

(** A value of [use_kerberos] that counts as true: [True], an integer
    other than 0, a string other than the empty one. *)
Definition counts_as_true (v : pyval) : Prop :=
  v = VBool true ∨ (∃ z, v = VInt z ∧ z ≠ 0) ∨ (∃ s, v = VStr s ∧ s ≠ "").

(** * Properties *)

(** ** Python fragment: sample evaluations *)

Example split_targets : split "10.0.0.1 10.0.0.2" = ["10.0.0.1"; "10.0.0.2"].
Proof. reflexivity. Qed.

Example split_runs : split "  a	b
 c  " = ["a"; "b"; "c"].
Proof. reflexivity. Qed.

Example int_8088 : int "8088" = Some 8088.
Proof. reflexivity. Qed.

Example int_forms :
  int " -1_000 " = Some (-1000) ∧ int "8_" = None ∧ int "" = None
  ∧ int "+7" = Some 7 ∧ int "0x10" = None.
Proof. repeat split; reflexivity. Qed.

Example str_int : str (VInt 50) = "50" ∧ str (VInt (-3)) = "-3".
Proof. split; reflexivity. Qed.

(** Closed decidable goals are settled by evaluation. *)
Ltac by_eval := apply (bool_decide_unpack _); vm_compute; exact I.

(** ** The argument vector of the collect operation *)

Section CollectArgs.

Implicit Types (a : dict) (args : list pyval).

Lemma extend_flag_group a key flag args :
  match a !! key with
  | Some v => args ++ [VStr flag; v]
  | None => args
  end = args ++ flag_group a key flag.
Proof. unfold flag_group. destruct (a !! key); by rewrite ?app_nil_r. Qed.

Lemma extend_kerberos_group a args :
  (if truthy (default VNone (a !! "use_kerberos"))
   then args ++ [VStr "-k"] else args) = args ++ kerberos_group a.
Proof. unfold kerberos_group. case_match; by rewrite ?app_nil_r. Qed.

Lemma extend_threads_group a args :
  match a !! "threads" with
  | Some v => args ++ [VStr "--threads"; VStr (str v)]
  | None => args
  end = args ++ threads_group a.
Proof. unfold threads_group. destruct (a !! "threads"); by rewrite ?app_nil_r. Qed.

Lemma extend_targets_group a args :
  targets_is_str a →
  match a !! "targets" with
  | Some v => toks ← call_split v; Ok (args ++ ([VStr "-t"] ++ toks))
  | None => Ok args
  end = Ok (args ++ targets_group a).
Proof.
  intros Hstr. unfold targets_group, target_tokens.
  destruct (a !! "targets") as [v|] eqn:Hv; [|by rewrite app_nil_r].
  destruct (Hstr v Hv) as [s ->]. reflexivity.
Qed.

(** The statements of the source, run in order, build [collect_vector]. *)
Lemma collect_args_vector a :
  targets_is_str a → collect_args a = Ok (collect_vector a).
Proof.
  intros Hstr. unfold collect_args, collect_vector.
  cbv zeta. rewrite !extend_flag_group, extend_kerberos_group.
  rewrite extend_targets_group by done.
  cbn [mbind res_mbind res_bind].
  rewrite !extend_flag_group, extend_threads_group.
  by rewrite <- !app_assoc.
Qed.

(** A [targets] value that is not a string makes the call raise. *)
Lemma collect_args_raises a v :
  a !! "targets" = Some v → (∀ s, v ≠ VStr s) →
  ∃ msg, collect_args a = Raise (Exc AttributeError msg).
Proof.
  intros Hv Hns. unfold collect_args. cbv zeta. rewrite Hv.
  destruct v; try (eexists; reflexivity). by destruct (Hns s).
Qed.

End CollectArgs.

Section CollectFlags.

Implicit Types (a : dict) (t : pyval).

Lemma filter_flag_group a key flag :
  is_flag (VStr flag) →
  Forall (λ t, ¬ is_flag t) (option_list (a !! key)) →
  filter is_flag (flag_group a key flag) = if_present a key flag.
Proof.
  intros Hflag Hval. unfold flag_group, if_present.
  destruct (a !! key) as [v|]; simpl in Hval.
  - apply Forall_cons in Hval as [Hv _].
    rewrite decide_True by eauto.
    rewrite filter_cons_True by done. by rewrite filter_cons_False.
  - rewrite decide_False; [done | by intros [? ?]].
Qed.

Lemma filter_no_flag (l : list pyval) :
  Forall (λ t, ¬ is_flag t) l → filter is_flag l = [].
Proof.
  induction 1 as [|t l Ht _ IH]; [done|].
  by rewrite filter_cons_False.
Qed.

Lemma filter_targets_group a :
  Forall (λ t, ¬ is_flag t) (target_tokens a) →
  filter is_flag (targets_group a) = if_present a "targets" "-t".
Proof.
  intros Htok. unfold targets_group, if_present.
  destruct (a !! "targets") as [v|].
  - rewrite decide_True by eauto.
    rewrite filter_cons_True by by_eval.
    by rewrite filter_no_flag.
  - rewrite decide_False; [done | by intros [? ?]].
Qed.

Lemma filter_threads_group a :
  Forall (λ t, ¬ is_flag t)
         (option_list ((λ v, VStr (str v)) <$> a !! "threads")) →
  filter is_flag (threads_group a) = if_present a "threads" "--threads".
Proof.
  intros Hval. unfold threads_group, if_present.
  destruct (a !! "threads") as [v|]; simpl in Hval.
  - apply Forall_cons in Hval as [Hv _].
    rewrite decide_True by eauto.
    rewrite filter_cons_True by by_eval.
    by rewrite filter_cons_False.
  - rewrite decide_False; [done | by intros [? ?]].
Qed.

Lemma filter_kerberos_group a :
  filter is_flag (kerberos_group a) = kerberos_group a.
Proof.
  unfold kerberos_group. case_match; [|done].
  rewrite filter_cons_True; [done | by_eval].
Qed.

(** When no value supplied by the caller is itself a flag, the flags of
    the vector are exactly the expected ones, in order. *)
Lemma collect_vector_flags a :
  Forall (λ t, ¬ is_flag t) (caller_tokens a) →
  filter is_flag (collect_vector a) = expected_flags a.
Proof.
  unfold caller_tokens. rewrite !Forall_app.
  intros (Hu & Hp & Hd & Hh & Ht & Hc & Hn).
  unfold collect_vector, expected_flags. rewrite !filter_app.
  rewrite !filter_flag_group by (done || by_eval).
  rewrite filter_kerberos_group, filter_targets_group, filter_threads_group
    by done.
  rewrite filter_cons_False; [done | by_eval].
Qed.

End CollectFlags.

Example sample_vector :
  collect_args sample_bundle
  = Ok (VStr <$> ["collect"; "-u"; "admin"; "-k"; "-t"; "10.0.0.1";
                  "10.0.0.2"; "--threads"; "50"]).
Proof. vm_compute. reflexivity. Qed.

(** C1, as stated, fails: the key [use_kerberos] is present in the bundle,
    yet the vector holds no [-k], so the flags do not all follow the presence
    of their keys. *)
Lemma collect_flags_follow_keys_fails :
  collect_args no_kerberos_bundle
  = Ok (VStr <$> ["collect"; "-u"; "admin"; "-t"; "10.0.0.1"])
  ∧ ¬ flags_follow_keys no_kerberos_bundle
        (VStr <$> ["collect"; "-u"; "admin"; "-t"; "10.0.0.1"]).
Proof.
  split; [by vm_compute|].
  intros H. specialize (H "use_kerberos" "-k").
  assert (Hin : ("use_kerberos", "-k") ∈ param_flags) by by_eval.
  apply H in Hin as [_ Hk].
  assert (Hpres : is_Some (no_kerberos_bundle !! "use_kerberos")) by by_eval.
  apply Hk in Hpres. revert Hpres.
  apply (bool_decide_eq_false_1 _). by vm_compute.
Qed.

(** C1, amended: for every bundle whose [targets], if present, is a string,
    the vector handed to the command runner is ["collect"] followed by the
    groups [-u username], [-p password], [-d domain], [-H hashes], [-k],
    [-t] and the white-space separated tokens of [targets],
    [-c collectors], [--threads str(threads)], in that order; each group
    other than [-k] is there exactly when its key is in the bundle, and
    [-k] exactly when [use_kerberos] holds a true value.  When no value of
    the caller is itself a flag, the flags occurring in the vector are
    exactly those, in the fixed order. *)
Theorem collect_argument_vector (E : os_env) (port : Z) (a : dict)
    (σ : machine) :
  targets_is_str a →
  collect_args a = Ok (collect_vector a)
  ∧ call_tool E port "donpapi_collect" a σ
    = ((λ result, [text_content (json_dumps E result)])
         <$> run_donpapi_command E (collect_vector a) None, σ)
  ∧ (Forall (λ t, ¬ is_flag t) (caller_tokens a) →
     filter is_flag (collect_vector a) = expected_flags a).
Proof.
  intros Hstr. split; [by apply collect_args_vector|]. split.
  - unfold call_tool. rewrite decide_True by done.
    unfold mbind, M_bind, lift. rewrite collect_args_vector by done.
    by destruct (run_donpapi_command E (collect_vector a) None).
  - apply collect_vector_flags.
Qed.

Lemma sample_targets_is_str : targets_is_str sample_bundle.
Proof.
  intros v Hv. vm_compute in Hv. injection Hv as <-. by eexists.
Defined.

Lemma sample_values_no_flag :
  Forall (λ t, ¬ is_flag t) (caller_tokens sample_bundle).
Proof. by_eval. Defined.

Lemma collect_argument_vector_witness :
  targets_is_str sample_bundle
  ∧ Forall (λ t, ¬ is_flag t) (caller_tokens sample_bundle)
  ∧ collect_args sample_bundle = Ok (collect_vector sample_bundle)
  ∧ call_tool quiet_env 8088 "donpapi_collect" sample_bundle initial
    = ((λ result, [text_content (json_dumps quiet_env result)])
         <$> run_donpapi_command quiet_env (collect_vector sample_bundle) None,
       initial)
  ∧ filter is_flag (collect_vector sample_bundle)
    = expected_flags sample_bundle.
Proof.
  split; [exact sample_targets_is_str|].
  split; [exact sample_values_no_flag|].
  destruct (collect_argument_vector quiet_env 8088 sample_bundle initial
              sample_targets_is_str) as (Hvec & Hcall & Hflags).
  split; [exact Hvec|]. split; [exact Hcall|].
  exact (Hflags sample_values_no_flag).
Defined.

Example sample_flags :
  expected_flags sample_bundle = VStr <$> ["-u"; "-k"; "-t"; "--threads"].
Proof. by vm_compute. Qed.

Example sample_command :
  run_donpapi_command quiet_env (collect_vector sample_bundle) None
  = Ok {[ "success" := VBool true; "stdout" := VStr ""; "stderr" := VStr "";
          "command" :=
            VStr "donpapi collect -u admin -k -t 10.0.0.1 10.0.0.2 --threads 50" ]}.
Proof. by vm_compute. Qed.

(** ** The Kerberos flag *)

Section Kerberos.

Implicit Types (a : dict) (t : pyval).

Lemma collect_vector_parts a :
  collect_vector a = auth_part a ++ kerberos_group a ++ options_part a.
Proof.
  unfold collect_vector, auth_part, options_part.
  by rewrite <- !app_assoc.
Qed.

Lemma flag_group_avoids a key flag t :
  t ≠ VStr flag → t ∉ option_list (a !! key) → t ∉ flag_group a key flag.
Proof.
  unfold flag_group. destruct (a !! key) as [v|]; simpl.
  - rewrite !not_elem_of_cons. tauto.
  - intros _ _. apply not_elem_of_nil.
Qed.

Lemma auth_part_avoids_k a :
  VStr "-k" ∉ caller_tokens a → VStr "-k" ∉ auth_part a.
Proof.
  unfold caller_tokens, auth_part. rewrite !not_elem_of_app.
  intros (Hu & Hp & Hd & Hh & _).
  repeat split; try (by apply flag_group_avoids).
  rewrite not_elem_of_cons. split; [done | apply not_elem_of_nil].
Qed.

Lemma options_part_avoids_k a :
  VStr "-k" ∉ caller_tokens a → VStr "-k" ∉ options_part a.
Proof.
  unfold caller_tokens, options_part. rewrite !not_elem_of_app.
  intros (_ & _ & _ & _ & Ht & Hc & Hn).
  repeat split; try (by apply flag_group_avoids).
  - unfold targets_group. destruct (a !! "targets"); [|apply not_elem_of_nil].
    rewrite not_elem_of_cons. by split.
  - unfold threads_group. revert Hn.
    destruct (a !! "threads") as [v|]; simpl; [|intros _; apply not_elem_of_nil].
    rewrite !not_elem_of_cons. intros [Hv _].
    repeat split; [done | done | apply not_elem_of_nil].
Qed.

(** Whatever follows the place of [-k] starts with the next flag. *)
Lemma options_part_head a :
  options_part a = []
  ∨ ∃ f rest, options_part a = VStr f :: rest ∧ f ∈ ["-t"; "-c"; "--threads"].
Proof.
  unfold options_part, targets_group, flag_group, threads_group.
  destruct (a !! "targets"), (a !! "collectors"), (a !! "threads"); simpl;
    first [ by left | right; do 2 eexists; split; [reflexivity | by_eval] ].
Qed.

(** The two parts do not read [use_kerberos]. *)
Lemma parts_ignore_kerberos a :
  auth_part (delete "use_kerberos" a) = auth_part a
  ∧ options_part (delete "use_kerberos" a) = options_part a.
Proof.
  unfold auth_part, options_part, flag_group, targets_group, target_tokens,
    threads_group.
  by rewrite !lookup_delete_ne by done.
Qed.

End Kerberos.

(** C9, as stated, fails: values are handed over unchecked, so with
    [use_kerberos] absent a word [-k] of [targets] is a [-k] token of the
    vector all the same. *)
Lemma k_token_from_targets :
  targets_is_str k_in_targets_bundle
  ∧ k_in_targets_bundle !! "use_kerberos" = None
  ∧ collect_args k_in_targets_bundle
    = Ok (VStr <$> ["collect"; "-u"; "admin"; "-t"; "10.0.0.1"; "-k"])
  ∧ VStr "-k" ∈ (VStr <$> ["collect"; "-u"; "admin"; "-t"; "10.0.0.1"; "-k"])
  ∧ ¬ no_k_unless_kerberos.
Proof.
  assert (Hstr : targets_is_str k_in_targets_bundle).
  { intros v Hv. vm_compute in Hv. injection Hv as <-. by eexists. }
  assert (Hargs : collect_args k_in_targets_bundle
            = Ok (VStr <$> ["collect"; "-u"; "admin"; "-t"; "10.0.0.1"; "-k"]))
    by (by vm_compute).
  assert (Hin : VStr "-k"
            ∈ (VStr <$> ["collect"; "-u"; "admin"; "-t"; "10.0.0.1"; "-k"]))
    by by_eval.
  split; [exact Hstr|]. split; [reflexivity|]. split; [exact Hargs|].
  split; [exact Hin|]. intros Hclaim.
  exact (Hclaim k_in_targets_bundle _ Hstr (or_intror eq_refl) Hargs Hin).
Qed.

(** C9, amended: in the collect argument vector, a [use_kerberos] that is
    true makes the adapter emit one token [-k], after the authentication
    flags, and what follows it is the next flag ([-t], [-c] or [--threads])
    or nothing, not a value; a [use_kerberos] that is false or absent makes
    it emit none.  Any other [-k] in the vector is a value of the caller:
    for a bundle whose [targets] is a string and none of whose values is
    itself the token [-k], the vector holds exactly that one [-k] in the
    first case and no [-k] in the second. *)
Theorem kerberos_flag_bare (a : dict) :
  targets_is_str a →
  VStr "-k" ∉ caller_tokens a →
  (a !! "use_kerberos" = Some (VBool true) →
   ∃ pre post,
     collect_args a = Ok (pre ++ VStr "-k" :: post)
     ∧ (VStr "-k" ∉ pre) ∧ (VStr "-k" ∉ post)
     ∧ (post = []
        ∨ ∃ f rest, post = VStr f :: rest ∧ f ∈ ["-t"; "-c"; "--threads"]))
  ∧ (a !! "use_kerberos" = Some (VBool false) ∨ a !! "use_kerberos" = None →
     ∃ args, collect_args a = Ok args ∧ VStr "-k" ∉ args).
Proof.
  intros Hstr Hfree.
  pose proof (auth_part_avoids_k a Hfree) as Hpre.
  pose proof (options_part_avoids_k a Hfree) as Hpost.
  rewrite collect_args_vector, collect_vector_parts by done.
  unfold kerberos_group. split.
  - intros ->. simpl. exists (auth_part a), (options_part a).
    repeat split; [done | done | apply options_part_head].
  - intros Hk. exists (auth_part a ++ options_part a). split.
    + by destruct Hk as [-> | ->].
    + rewrite not_elem_of_app. by split.
Qed.

Lemma kerberos_flag_bare_witness :
  targets_is_str sample_bundle
  ∧ (VStr "-k" ∉ caller_tokens sample_bundle)
  ∧ (sample_bundle !! "use_kerberos" = Some (VBool true) →
     ∃ pre post,
       collect_args sample_bundle = Ok (pre ++ VStr "-k" :: post)
       ∧ (VStr "-k" ∉ pre) ∧ (VStr "-k" ∉ post)
       ∧ (post = []
          ∨ ∃ f rest, post = VStr f :: rest ∧ f ∈ ["-t"; "-c"; "--threads"]))
  ∧ (sample_bundle !! "use_kerberos" = Some (VBool false)
     ∨ sample_bundle !! "use_kerberos" = None →
     ∃ args, collect_args sample_bundle = Ok args ∧ VStr "-k" ∉ args).
Proof.
  assert (Hfree : VStr "-k" ∉ caller_tokens sample_bundle) by by_eval.
  split; [exact sample_targets_is_str|]. split; [exact Hfree|].
  exact (kerberos_flag_bare sample_bundle sample_targets_is_str Hfree).
Defined.

(** ** The command runner *)

Section CommandRunner.

Implicit Types (E : os_env) (args : list string).

Lemma join_items_strings (l : list string) (i : nat) :
  join_items i (VStr <$> l) = Ok l.
Proof.
  revert i. induction l as [|s l IH]; intros i; [done|].
  simpl. by rewrite IH.
Qed.

Lemma call_join_strings (sep : string) (l : list string) :
  call_join sep (VStr <$> l) = Ok (join sep l).
Proof. unfold call_join. by rewrite join_items_strings. Qed.

Lemma string_app_nil_r (s : string) : s +:+ "" = s.
Proof.
  induction s as [|c s IH]; [done|].
  change (String c (s +:+ "") = String c s). by rewrite IH.
Qed.

(** Joining with a space puts exactly one space before every item but the
    first. *)
Lemma join_spaced (s : string) (l : list string) :
  join " " (s :: l) = s +:+ spaced l.
Proof.
  revert s. induction l as [|x l IH]; intros s.
  - simpl. by rewrite string_app_nil_r.
  - change (join " " (s :: x :: l)) with (s +:+ " " +:+ join " " (x :: l)).
    by rewrite IH.
Qed.

(** An item that is not a string makes the join raise a [TypeError]. *)
Lemma join_items_raises (l : list pyval) (i : nat) :
  (∃ v, v ∈ l ∧ ∀ s, v ≠ VStr s) →
  ∃ msg, join_items i l = Raise (Exc TypeError msg).
Proof.
  revert i. induction l as [|v l IH]; intros i [w [Hin Hns]].
  - by apply elem_of_nil in Hin.
  - destruct v as [| b | z | s]; try (eexists; reflexivity).
    apply elem_of_cons in Hin as [-> | Hin]; [by destruct (Hns s)|].
    destruct (IH (S i)) as [msg Hmsg]; [by exists w|].
    exists msg. simpl. by rewrite Hmsg.
Qed.

Lemma join_items_raises_cls (l : list pyval) (i : nat) (e : exc) :
  join_items i l = Raise e → exc_cls e = TypeError.
Proof.
  revert i. induction l as [|v l IH]; intros i; [done|].
  destruct v; simpl; try (by intros [= <-]).
  destruct (join_items (S i) l) eqn:Hl; [done|].
  simpl. intros [= <-]. by eapply IH.
Qed.

Lemma call_join_raises (sep : string) (l : list pyval) (e : exc) :
  call_join sep l = Raise e → exc_cls e = TypeError.
Proof.
  unfold call_join. destruct (join_items 0 l) as [ss | e'] eqn:Hit; [done|].
  simpl. intros [= <-]. by eapply join_items_raises_cls.
Qed.

Lemma run_donpapi_command_total E (cmd_args : list pyval) timeout :
  ∃ r, run_donpapi_command E cmd_args timeout = Ok r.
Proof.
  unfold run_donpapi_command. cbv zeta.
  destruct (subprocess_run E _ _) as [rc out err | e].
  - destruct (call_join " " (VStr "donpapi" :: cmd_args)) as [c | e]; simpl.
    + by eexists.
    + destruct (exc_cls e); by eexists.
  - destruct (exc_cls e); by eexists.
Qed.

End CommandRunner.

(** C2: when the subprocess terminates normally within the timeout, the
    command runner returns a result whose [success] is true exactly when
    the exit code is zero, with the captured standard output and standard
    error, and the command string: "donpapi" followed by every argument,
    each after a single space. *)
Theorem run_normal_exit (E : os_env) (args : list string)
    (timeout : option Z) (rc : Z) (out err : string) :
  subprocess_run E (VStr <$> "donpapi" :: args) (default 600 timeout)
  = Completed rc out err →
  ∃ success command,
    run_donpapi_command E (VStr <$> args) timeout
    = Ok {[ "success" := VBool success; "stdout" := VStr out;
            "stderr" := VStr err; "command" := VStr command ]}
    ∧ (success = true ↔ rc = 0)
    ∧ command = join " " ("donpapi" :: args)
    ∧ command = "donpapi" +:+ spaced args.
Proof.
  intros Hrun. exists (rc =? 0), (join " " ("donpapi" :: args)).
  split; [|split; [apply Z.eqb_eq | split; [done | apply join_spaced]]].
  unfold run_donpapi_command. cbv zeta.
  change (VStr "donpapi" :: (VStr <$> args))
    with (VStr <$> "donpapi" :: args).
  rewrite Hrun, call_join_strings. reflexivity.
Qed.

Lemma run_normal_exit_witness :
  subprocess_run failing_env (VStr <$> "donpapi" :: ["collect"; "-u"; "admin"])
    (default 600 None)
  = Completed 2 "" "usage: donpapi"
  ∧ ∃ success command,
      run_donpapi_command failing_env (VStr <$> ["collect"; "-u"; "admin"]) None
      = Ok {[ "success" := VBool success; "stdout" := VStr "";
              "stderr" := VStr "usage: donpapi"; "command" := VStr command ]}
      ∧ (success = true ↔ 2 = 0)
      ∧ command = join " " ("donpapi" :: ["collect"; "-u"; "admin"])
      ∧ command = "donpapi" +:+ spaced ["collect"; "-u"; "admin"].
Proof.
  split; [reflexivity|].
  exact (run_normal_exit failing_env ["collect"; "-u"; "admin"] None 2 ""
           "usage: donpapi" eq_refl).
Defined.

Example run_command_string :
  run_donpapi_command quiet_env (VStr <$> ["collect"; "-u"; "admin"]) None
  = Ok {[ "success" := VBool true; "stdout" := VStr ""; "stderr" := VStr "";
          "command" := VStr "donpapi collect -u admin" ]}.
Proof. reflexivity. Qed.

(** C3: the command runner never lets an exception out. It always returns
    a result; when the subprocess exceeds the timeout (600 unless another
    value is given) the result has [success] false and an error message
    that holds the timeout value; on any other failure of the execution it
    has [success] false and the exception's string as error message. *)
Theorem run_never_raises (E : os_env) (cmd_args : list pyval)
    (timeout : option Z) :
  let t := default 600 timeout in
  ∃ r,
    run_donpapi_command E cmd_args timeout = Ok r
    ∧ (∀ e, subprocess_run E (VStr "donpapi" :: cmd_args) t = RunRaises e →
         exc_cls e = TimeoutExpired →
         r = failure ("Command timed out after " +:+ pretty t +:+ "s"))
    ∧ (∀ e, subprocess_run E (VStr "donpapi" :: cmd_args) t = RunRaises e →
         exc_cls e ≠ TimeoutExpired →
         r = failure (exc_str e))
    ∧ (∀ rc out err e,
         subprocess_run E (VStr "donpapi" :: cmd_args) t = Completed rc out err →
         call_join " " (VStr "donpapi" :: cmd_args) = Raise e →
         exc_cls e = TypeError ∧ r = failure (exc_str e))
    ∧ run_donpapi_command E cmd_args None
      = run_donpapi_command E cmd_args (Some 600).
Proof.
  intros t. destruct (run_donpapi_command_total E cmd_args timeout) as [r Hr].
  exists r. split; [done|].
  revert Hr. unfold run_donpapi_command. cbv zeta. fold t.
  destruct (subprocess_run E _ t) as [rc out err | e] eqn:Hrun; intros Hr;
    (split; [|split; [|split; [|done]]]); try done.
  - intros rc' out' err' e _ Hjoin. revert Hr. rewrite Hjoin. simpl.
    pose proof (call_join_raises _ _ _ Hjoin) as Hcls.
    rewrite Hcls. by intros [= <-].
  - intros e' [= <-] Hcls. revert Hr. rewrite Hcls. by intros [= <-].
  - intros e' [= <-] Hcls. revert Hr.
    destruct (exc_cls e); [done | | |]; by intros [= <-].
Qed.

(** ** The GUI process manager *)

Section GuiManager.

Implicit Types (E : os_env) (σ : machine) (a : dict) (h : nat).

Lemma bind_run {A B} (m : M A) (k : A → M B) σ :
  (m ≫= k) σ
  = match m σ with
    | (Ok x, σ') => k x σ'
    | (Raise e, σ') => (Raise e, σ')
    end.
Proof. reflexivity. Qed.

Lemma gui_is_alive_run σ : gui_is_alive σ = (Ok (guard σ), σ).
Proof.
  unfold gui_is_alive, guard. rewrite bind_run. unfold get_gui_process.
  destruct (gui_process σ) as [h|]; [|done].
  rewrite bind_run. unfold poll.
  by destruct (procs σ !! h ≫= p_returncode).
Qed.

Lemma guard_alive σ h : gui_process σ = Some h → alive σ h → guard σ = true.
Proof. unfold guard, alive. by intros -> ->. Qed.

Lemma guard_exited σ h : gui_process σ = Some h → exited σ h → guard σ = false.
Proof. unfold guard, exited. by intros -> [code ->]. Qed.

Lemma guard_unset σ : gui_process σ = None → guard σ = false.
Proof. unfold guard. by intros ->. Qed.

(** The branch [donpapi_start_gui], case by case. *)
Lemma start_branch_guarded E port a σ :
  guard σ = true →
  call_tool E port "donpapi_start_gui" a σ
  = (Ok [text_content "GUI is already running."], σ).
Proof.
  intros Hg. unfold call_tool.
  rewrite decide_False, decide_True by done.
  by rewrite bind_run, gui_is_alive_run, Hg.
Qed.

Lemma start_branch_spawns E port a σ :
  guard σ = false →
  Popen E (start_gui_cmd (bind_of a) (port_of port a)) = None →
  call_tool E port "donpapi_start_gui" a σ
  = (Ok [text_content (started_message (bind_of a) (port_of port a))],
     started (start_gui_cmd (bind_of a) (port_of port a)) σ).
Proof.
  intros Hg Hspawn. unfold call_tool.
  rewrite decide_False, decide_True by done.
  rewrite bind_run, gui_is_alive_run, Hg.
  unfold try_except. rewrite bind_run. unfold call_Popen.
  fold (bind_of a) (port_of port a). by rewrite Hspawn.
Qed.

Lemma start_branch_fails E port a σ e :
  guard σ = false →
  Popen E (start_gui_cmd (bind_of a) (port_of port a)) = Some e →
  call_tool E port "donpapi_start_gui" a σ
  = (Ok [text_content ("Failed to start GUI: " +:+ exc_str e)], σ).
Proof.
  intros Hg Hspawn. unfold call_tool.
  rewrite decide_False, decide_True by done.
  rewrite bind_run, gui_is_alive_run, Hg.
  unfold try_except. rewrite bind_run. unfold call_Popen.
  fold (bind_of a) (port_of port a). by rewrite Hspawn.
Qed.

(** The branch [donpapi_stop_gui]. *)
Lemma stop_branch_tracked E port a σ h :
  gui_process σ = Some h →
  call_tool E port "donpapi_stop_gui" a σ
  = (Ok [text_content "DonPAPI GUI stopped."], stopped h σ).
Proof.
  intros Hh. unfold call_tool.
  rewrite !decide_False, decide_True by done.
  rewrite bind_run. unfold get_gui_process. by rewrite Hh.
Qed.

Lemma stop_branch_unset E port a σ :
  gui_process σ = None →
  call_tool E port "donpapi_stop_gui" a σ
  = (Ok [text_content "GUI is not running."], σ).
Proof.
  intros Hh. unfold call_tool.
  rewrite !decide_False, decide_True by done.
  rewrite bind_run. unfold get_gui_process. by rewrite Hh.
Qed.

(** The collect branch does not touch the machine. *)
Lemma collect_keeps_state E port a σ :
  (call_tool E port "donpapi_collect" a σ).2 = σ.
Proof.
  unfold call_tool. rewrite decide_True by done.
  rewrite bind_run. unfold lift.
  destruct (collect_args a); [|done].
  rewrite bind_run. by destruct (run_donpapi_command E _ None).
Qed.

Lemma unknown_keeps_state E port name a σ :
  name ≠ "donpapi_collect" → name ≠ "donpapi_start_gui" →
  name ≠ "donpapi_stop_gui" →
  call_tool E port name a σ
  = (Ok [text_content ("Unknown tool: " +:+ name)], σ).
Proof. intros. unfold call_tool. by rewrite !decide_False by done. Qed.

(** Every call leaves the machine as it was, or spawns from a state whose
    guard is false, or stops the tracked process. *)
Lemma call_tool_state E port name a σ :
  let σ' := (call_tool E port name a σ).2 in
  σ' = σ
  ∨ (guard σ = false ∧ ∃ cmd, σ' = started cmd σ)
  ∨ (∃ h, gui_process σ = Some h ∧ σ' = stopped h σ).
Proof.
  intros σ'. subst σ'.
  destruct (decide (name = "donpapi_collect")) as [-> | Hc].
  { left. apply collect_keeps_state. }
  destruct (decide (name = "donpapi_start_gui")) as [-> | Hs].
  { destruct (guard σ) eqn:Hg.
    - left. by rewrite start_branch_guarded.
    - destruct (Popen E (start_gui_cmd (bind_of a) (port_of port a)))
        as [e|] eqn:Hp.
      + left. by rewrite (start_branch_fails _ _ _ _ e).
      + right; left. split; [done|]. eexists. by rewrite start_branch_spawns. }
  destruct (decide (name = "donpapi_stop_gui")) as [-> | Ht].
  { destruct (gui_process σ) as [h|] eqn:Hh.
    - right; right. exists h. split; [done|]. by rewrite (stop_branch_tracked _ _ _ _ h).
    - left. by rewrite stop_branch_unset. }
  left. by rewrite unknown_keeps_state.
Qed.

End GuiManager.

(** ** The single-instance invariant *)

Section SingleInstance.

Implicit Types (σ : machine) (h : nat).

Lemma single_instance_initial : single_instance initial.
Proof. split; [done|]. simpl. lia. Qed.

Lemma single_instance_started cmd σ :
  guard σ = false → single_instance σ → single_instance (started cmd σ).
Proof.
  intros Hg [Hwf Hone]. split; simpl.
  - intros h [= <-]. rewrite length_app. simpl. lia.
  - intros h Hlt Halive Hterm. f_equal.
    rewrite length_app in Hlt. simpl in Hlt.
    destruct (decide (h = length (procs σ))) as [|Hne]; [done|].
    assert (Hlt' : (h < length (procs σ))%nat) by lia.
    unfold alive in Halive. simpl in Halive.
    rewrite lookup_app_l in Halive by done.
    pose proof (Hone h Hlt' Halive Hterm) as Hh.
    by rewrite (guard_alive σ h Hh Halive) in Hg.
Qed.

Lemma single_instance_stopped σ h :
  gui_process σ = Some h → single_instance σ → single_instance (stopped h σ).
Proof.
  intros Hh [Hwf Hone]. split; simpl; [done|].
  intros h' Hlt Halive Hterm. apply not_elem_of_app in Hterm as [Hterm Hne].
  pose proof (Hone h' Hlt Halive Hterm) as Hh'.
  rewrite Hh in Hh'. injection Hh' as ->.
  destruct Hne. by apply list_elem_of_singleton.
Qed.

Lemma single_instance_exit σ h code :
  single_instance σ → single_instance (exit_process h code σ).
Proof.
  intros [Hwf Hone]. split; simpl.
  - intros h' Hh'. rewrite length_alter. by apply Hwf.
  - intros h' Hlt Halive Hterm. rewrite length_alter in Hlt.
    apply Hone; [done | | done].
    unfold alive in *. simpl in Halive.
    destruct (decide (h = h')) as [-> | Hne].
    + rewrite list_lookup_alter_eq in Halive.
      by destruct (procs σ !! h').
    + by rewrite list_lookup_alter_ne in Halive.
Qed.

Lemma single_instance_step σ σ' :
  step σ σ' → single_instance σ → single_instance σ'.
Proof.
  intros [E port name a σ0 r σ1 Hcall | h code p σ0 _ _] Hinv.
  - pose proof (call_tool_state E port name a σ0) as Hcases.
    rewrite Hcall in Hcases. simpl in Hcases.
    destruct Hcases as [-> | [[Hg [cmd ->]] | [h [Hh ->]]]].
    + done.
    + by apply single_instance_started.
    + by apply single_instance_stopped.
  - by apply single_instance_exit.
Qed.

Lemma single_instance_reachable σ : reachable σ → single_instance σ.
Proof.
  unfold reachable. revert σ. apply rtc_ind_r.
  - apply single_instance_initial.
  - intros σ1 σ2 _ Hstep IH. by eapply single_instance_step.
Qed.

End SingleInstance.

(** ** Sample runs *)

Lemma running_machine_reachable : reachable running_machine.
Proof.
  eapply rtc_l; [|apply rtc_refl].
  by apply (step_call quiet_env 8088 "donpapi_start_gui" ∅ initial
              (Ok [text_content "DonPAPI GUI started on http://0.0.0.0:8088"])).
Qed.

Lemma stale_machine_reachable : reachable stale_machine.
Proof.
  eapply rtc_r; [apply running_machine_reachable|].
  by eapply (step_exit 0 1).
Qed.

Example start_twice :
  call_tool quiet_env 8088 "donpapi_start_gui" ∅ running_machine
  = (Ok [text_content "GUI is already running."], running_machine).
Proof. reflexivity. Qed.

Example start_after_exit :
  call_tool quiet_env 8088 "donpapi_start_gui" ∅ stale_machine
  = (Ok [text_content "DonPAPI GUI started on http://0.0.0.0:8088"],
     {| gui_process := Some 1%nat;
        procs := [ {| p_args := default_gui_cmd; p_returncode := Some 1 |};
                   {| p_args := default_gui_cmd; p_returncode := None |} ];
        terminate_calls := [] |}).
Proof. reflexivity. Qed.

Example run_without_executable :
  run_donpapi_command no_exe_env [VStr "collect"] None
  = Ok (failure "[Errno 2] No such file or directory: 'donpapi'").
Proof. reflexivity. Qed.

Example run_timed_out :
  run_donpapi_command
    {| subprocess_run := λ _ _, RunRaises (Exc TimeoutExpired "");
       Popen := λ _, None; json_dumps := λ _, "{}" |}
    [VStr "collect"] None
  = Ok (failure "Command timed out after 600s").
Proof. reflexivity. Qed.

(** ** The claims on the GUI process manager *)

(** C4: in every state the adapter can reach, at most one spawned GUI
    process is both still running and not yet asked to terminate, and it
    is the tracked one.  A start while the tracked process is alive, as
    polled at the time of the call, answers that the GUI is already
    running and changes nothing: no process is spawned and the handle
    stays.  A start while the tracked process has exited goes on to spawn:
    on success the new process becomes the tracked one. *)
Theorem start_gui_single_instance (σ : machine) :
  reachable σ →
  (∀ h1 h2 : nat,
     (h1 < length (procs σ))%nat → (h2 < length (procs σ))%nat →
     alive σ h1 → alive σ h2 →
     h1 ∉ terminate_calls σ → h2 ∉ terminate_calls σ →
     h1 = h2 ∧ gui_process σ = Some h1)
  ∧ (∀ E port a h,
       gui_process σ = Some h → alive σ h →
       call_tool E port "donpapi_start_gui" a σ
       = (Ok [text_content "GUI is already running."], σ))
  ∧ (∀ E port a h,
       gui_process σ = Some h → exited σ h →
       let cmd := start_gui_cmd (bind_of a) (port_of port a) in
       match Popen E cmd with
       | None =>
           call_tool E port "donpapi_start_gui" a σ
           = (Ok [text_content (started_message (bind_of a) (port_of port a))],
              started cmd σ)
           ∧ gui_process (started cmd σ) = Some (length (procs σ))
           ∧ alive (started cmd σ) (length (procs σ))
       | Some e =>
           call_tool E port "donpapi_start_gui" a σ
           = (Ok [text_content ("Failed to start GUI: " +:+ exc_str e)], σ)
       end).
Proof.
  intros Hreach. apply single_instance_reachable in Hreach as [Hwf Hone].
  split; [|split].
  - intros h1 h2 Hlt1 Hlt2 Ha1 Ha2 Ht1 Ht2.
    pose proof (Hone h1 Hlt1 Ha1 Ht1) as H1.
    pose proof (Hone h2 Hlt2 Ha2 Ht2) as H2.
    split; [congruence | done].
  - intros E port a h Hh Halive.
    apply start_branch_guarded. by eapply guard_alive.
  - intros E port a h Hh Hex cmd. subst cmd.
    pose proof (guard_exited σ h Hh Hex) as Hg.
    destruct (Popen E _) as [e|] eqn:Hp.
    + by apply start_branch_fails.
    + split; [by apply start_branch_spawns|]. split; [done|].
      unfold alive, started. simpl.
      by rewrite lookup_app_r, Nat.sub_diag by done.
Qed.

Lemma start_gui_single_instance_witness :
  reachable running_machine
  ∧ call_tool quiet_env 8088 "donpapi_start_gui" ∅ running_machine
    = (Ok [text_content "GUI is already running."], running_machine).
Proof.
  split; [exact running_machine_reachable|].
  refine (proj1 (proj2 (start_gui_single_instance running_machine
                          running_machine_reachable))
            quiet_env 8088 ∅ 0%nat _ _); reflexivity.
Defined.

(** C5: a stop with a tracked process handle calls [terminate] on it, sets
    the handle back to unset and answers with a confirmation, so that a
    start that follows spawns again; a stop with no tracked handle answers
    that the GUI is not running, raises nothing and changes nothing. *)
Theorem stop_gui_clears (E : os_env) (port : Z) (a : dict) (σ : machine) :
  match gui_process σ with
  | Some h =>
      let σ' := stopped h σ in
      call_tool E port "donpapi_stop_gui" a σ
      = (Ok [text_content "DonPAPI GUI stopped."], σ')
      ∧ gui_process σ' = None
      ∧ terminate_calls σ' = terminate_calls σ ++ [h]
      ∧ procs σ' = procs σ
      ∧ ∀ E' port' a',
          let cmd := start_gui_cmd (bind_of a') (port_of port' a') in
          Popen E' cmd = None →
          call_tool E' port' "donpapi_start_gui" a' σ'
          = (Ok [text_content
                   (started_message (bind_of a') (port_of port' a'))],
             started cmd σ')
  | None =>
      call_tool E port "donpapi_stop_gui" a σ
      = (Ok [text_content "GUI is not running."], σ)
  end.
Proof.
  destruct (gui_process σ) as [h|] eqn:Hh.
  - intros σ'. split; [by apply stop_branch_tracked|]. repeat split.
    intros E' port' a' cmd Hp. by apply start_branch_spawns.
  - by apply stop_branch_unset.
Qed.

Example stop_then_start :
  ∃ σ1 σ2,
    call_tool quiet_env 8088 "donpapi_stop_gui" ∅ running_machine
    = (Ok [text_content "DonPAPI GUI stopped."], σ1)
    ∧ gui_process σ1 = None ∧ terminate_calls σ1 = [0%nat]
    ∧ call_tool quiet_env 8088 "donpapi_start_gui" ∅ σ1
      = (Ok [text_content "DonPAPI GUI started on http://0.0.0.0:8088"], σ2)
    ∧ gui_process σ2 = Some 1%nat.
Proof.
  exists (stopped 0 running_machine),
         (started default_gui_cmd (stopped 0 running_machine)).
  split; [reflexivity|]. split; [reflexivity|].
  split; [reflexivity|]. split; reflexivity.
Qed.

Lemma no_live_gui_guard σ : no_live_gui σ → guard σ = false.
Proof.
  intros [Hnone | [h [Hh Hex]]].
  - by apply guard_unset.
  - by eapply guard_exited.
Qed.

(** C6: a start with no live tracked process spawns the command line
    [donpapi gui --bind <bind> --port <port>], where [bind] is "0.0.0.0"
    unless given and [port] is the configured GUI port unless given (the
    configured port being 8088 unless the environment sets it); the new
    process object becomes the tracked handle, and the answer is a
    confirmation that holds the bind address and the port. *)
Theorem start_gui_command_line (E : os_env) (environ : gmap string string)
    (gui_port : Z) (a : dict) (σ : machine) :
  let bind := default (VStr "0.0.0.0") (a !! "bind") in
  let port := default (VInt gui_port) (a !! "port") in
  let cmd := [VStr "donpapi"; VStr "gui"; VStr "--bind"; bind;
              VStr "--port"; VStr (str port)] in
  GUI_PORT environ = Some gui_port →
  no_live_gui σ →
  Popen E cmd = None →
  ∃ σ',
    call_tool E gui_port "donpapi_start_gui" a σ
    = (Ok [text_content ("DonPAPI GUI started on http://" +:+ str bind
                         +:+ ":" +:+ str port)], σ')
    ∧ gui_process σ' = Some (length (procs σ))
    ∧ procs σ' = procs σ ++ [{| p_args := cmd; p_returncode := None |}]
    ∧ terminate_calls σ' = terminate_calls σ
    ∧ (environ !! "DONPAPI_GUI_PORT" = None → gui_port = 8088).
Proof.
  intros bind port cmd Hconf Hdead Hspawn. exists (started cmd σ).
  split; [|repeat split].
  - apply start_branch_spawns; [by apply no_live_gui_guard | done].
  - intros Hunset. unfold GUI_PORT in Hconf. rewrite Hunset in Hconf.
    by injection Hconf as <-.
Qed.

Lemma start_gui_command_line_witness :
  GUI_PORT ∅ = Some 8088
  ∧ no_live_gui initial
  ∧ Popen quiet_env default_gui_cmd = None
  ∧ ∃ σ',
      call_tool quiet_env 8088 "donpapi_start_gui" ∅ initial
      = (Ok [text_content "DonPAPI GUI started on http://0.0.0.0:8088"], σ')
      ∧ gui_process σ' = Some 0%nat
      ∧ procs σ' = [{| p_args := default_gui_cmd; p_returncode := None |}]
      ∧ terminate_calls σ' = []
      ∧ ((∅ : gmap string string) !! "DONPAPI_GUI_PORT" = None → 8088 = 8088).
Proof.
  split; [reflexivity|]. split; [by left|]. split; [reflexivity|].
  exact (start_gui_command_line quiet_env ∅ 8088 ∅ initial eq_refl
           (or_introl eq_refl) eq_refl).
Defined.

Example configured_port :
  GUI_PORT {[ "DONPAPI_GUI_PORT" := "9090" ]} = Some 9090
  ∧ GUI_PORT {[ "DONPAPI_GUI_PORT" := "http" ]} = None.
Proof. split; reflexivity. Qed.

Example start_with_parameters :
  call_tool quiet_env 8088 "donpapi_start_gui"
    {[ "bind" := VStr "127.0.0.1"; "port" := VInt 9000 ]} initial
  = (Ok [text_content "DonPAPI GUI started on http://127.0.0.1:9000"],
     started (VStr <$> ["donpapi"; "gui"; "--bind"; "127.0.0.1"; "--port";
                        "9000"]) initial).
Proof. by vm_compute. Qed.

(** C7, as stated, fails: when the tracked process has exited on its own
    and the spawn of its replacement raises, the handle still names the
    exited process; it is not unset, and a stop that follows answers that
    the GUI was stopped, where an unset handle gives "GUI is not running." *)
Lemma failed_start_keeps_stale_handle :
  reachable stale_machine
  ∧ call_tool no_exe_env 8088 "donpapi_start_gui" ∅ stale_machine
    = (Ok [text_content
             "Failed to start GUI: [Errno 2] No such file or directory: 'donpapi'"],
       stale_machine)
  ∧ gui_process stale_machine = Some 0%nat
  ∧ (call_tool no_exe_env 8088 "donpapi_stop_gui" ∅ stale_machine).1
    = Ok [text_content "DonPAPI GUI stopped."]
  ∧ ¬ failed_start_leaves_unset.
Proof.
  split; [exact stale_machine_reachable|]. split; [reflexivity|].
  split; [reflexivity|]. split; [reflexivity|]. intros Hclaim.
  specialize (Hclaim no_exe_env 8088 ∅ stale_machine missing_exe
                stale_machine_reachable).
  discriminate Hclaim; [|reflexivity].
  right. exists 0%nat. split; [reflexivity|]. by exists 1.
Qed.

(** C7, amended: if spawning the GUI subprocess raises an exception, the
    start answers with a failure message that holds the exception's string,
    and the machine is as if no start had been attempted: the handle is
    unchanged, unset if it was unset. *)
Theorem start_gui_failure_keeps_state (E : os_env) (port : Z) (a : dict)
    (σ : machine) (e : exc) :
  no_live_gui σ →
  Popen E (start_gui_cmd (bind_of a) (port_of port a)) = Some e →
  call_tool E port "donpapi_start_gui" a σ
  = (Ok [text_content ("Failed to start GUI: " +:+ exc_str e)], σ)
  ∧ (gui_process σ = None →
     gui_process (call_tool E port "donpapi_start_gui" a σ).2 = None).
Proof.
  intros Hdead Hspawn.
  rewrite (start_branch_fails E port a σ e) by (by apply no_live_gui_guard || done).
  by split.
Qed.

Lemma start_gui_failure_keeps_state_witness :
  no_live_gui initial
  ∧ Popen no_exe_env (start_gui_cmd (bind_of ∅) (port_of 8088 ∅))
    = Some missing_exe
  ∧ call_tool no_exe_env 8088 "donpapi_start_gui" ∅ initial
    = (Ok [text_content ("Failed to start GUI: " +:+ exc_str missing_exe)],
       initial)
  ∧ (gui_process initial = None →
     gui_process (call_tool no_exe_env 8088 "donpapi_start_gui" ∅ initial).2
     = None).
Proof.
  split; [by left|]. split; [reflexivity|].
  exact (start_gui_failure_keeps_state no_exe_env 8088 ∅ initial missing_exe
           (or_introl eq_refl) eq_refl).
Defined.

(** C8: for every operation name other than the three registered ones, the
    dispatch answers with a text that says the tool is unknown and names
    it; it raises nothing and leaves the machine, the tracked GUI process
    handle included, as it was. *)
Theorem unknown_tool (E : os_env) (port : Z) (name : string) (a : dict)
    (σ : machine) :
  name ∉ ["donpapi_collect"; "donpapi_start_gui"; "donpapi_stop_gui"] →
  call_tool E port name a σ
  = (Ok [text_content ("Unknown tool: " +:+ name)], σ).
Proof.
  rewrite !not_elem_of_cons. intros (Hc & Hs & Ht & _).
  by apply unknown_keeps_state.
Qed.

Lemma unknown_tool_witness :
  ("donpapi_status"
     ∉ ["donpapi_collect"; "donpapi_start_gui"; "donpapi_stop_gui"])
  ∧ call_tool quiet_env 8088 "donpapi_status" ∅ running_machine
    = (Ok [text_content "Unknown tool: donpapi_status"], running_machine).
Proof.
  assert (Hname : "donpapi_status"
            ∉ ["donpapi_collect"; "donpapi_start_gui"; "donpapi_stop_gui"])
    by by_eval.
  split; [exact Hname|].
  exact (unknown_tool quiet_env 8088 "donpapi_status" ∅ running_machine Hname).
Defined.

(** C10: a stop does not look at whether the tracked process is alive.
    When the handle is set and its process has already exited, the stop
    still calls [terminate] on it, unsets the handle and answers that the
    GUI was stopped, not that it is not running: its answer is the one it
    gives for any tracked handle.  A start in that same state does not
    answer that the GUI is already running. *)
Theorem stop_gui_ignores_liveness (E : os_env) (port : Z) (a : dict)
    (σ : machine) (h : nat) :
  gui_process σ = Some h →
  exited σ h →
  call_tool E port "donpapi_stop_gui" a σ
  = (Ok [text_content "DonPAPI GUI stopped."], stopped h σ)
  ∧ text_content "DonPAPI GUI stopped." ≠ text_content "GUI is not running."
  ∧ terminate_calls (stopped h σ) = terminate_calls σ ++ [h]
  ∧ gui_process (stopped h σ) = None
  ∧ (∀ σ2, gui_process σ2 = Some h →
       (call_tool E port "donpapi_stop_gui" a σ2).1
       = (call_tool E port "donpapi_stop_gui" a σ).1)
  ∧ (∀ E' port' a',
       (call_tool E' port' "donpapi_start_gui" a' σ).1
       ≠ Ok [text_content "GUI is already running."]).
Proof.
  intros Hh Hex. rewrite (stop_branch_tracked E port a σ h Hh).
  split; [done|]. split; [done|]. split; [done|]. split; [done|]. split.
  - intros σ2 Hh2. by rewrite (stop_branch_tracked E port a σ2 h Hh2).
  - intros E' port' a'. pose proof (guard_exited σ h Hh Hex) as Hg.
    destruct (Popen E' (start_gui_cmd (bind_of a') (port_of port' a')))
      as [e|] eqn:Hp.
    + rewrite (start_branch_fails E' port' a' σ e Hg Hp). simpl.
      intros Heq. injection Heq as Heq. vm_compute in Heq. discriminate Heq.
    + rewrite (start_branch_spawns E' port' a' σ Hg Hp). simpl.
      intros Heq. injection Heq as Heq. vm_compute in Heq. discriminate Heq.
Qed.

Lemma stale_machine_exited : exited stale_machine 0.
Proof. by exists 1. Defined.

Lemma stop_gui_ignores_liveness_witness :
  gui_process stale_machine = Some 0%nat
  ∧ exited stale_machine 0
  ∧ call_tool quiet_env 8088 "donpapi_stop_gui" ∅ stale_machine
    = (Ok [text_content "DonPAPI GUI stopped."], stopped 0 stale_machine).
Proof.
  split; [reflexivity|]. split; [exact stale_machine_exited|].
  exact (proj1 (stop_gui_ignores_liveness quiet_env 8088 ∅ stale_machine 0
                  eq_refl stale_machine_exited)).
Defined.

(** * Further properties of the adapter *)

(** ** Errors of the dispatch *)

Section DispatchErrors.

Implicit Types (E : os_env) (σ : machine) (a : dict).

Lemma collect_args_raise_iff a e :
  collect_args a = Raise e
  ↔ ∃ v, a !! "targets" = Some v ∧ (∀ s, v ≠ VStr s)
         ∧ e = Exc AttributeError
                 ("'" +:+ type_name v +:+ "' object has no attribute 'split'").
Proof.
  split.
  - intros Hraise. destruct (a !! "targets") as [v|] eqn:Hv.
    + exists v. split; [done|].
      destruct v as [| b | z | s].
      1-3: (split; [done|]; revert Hraise; unfold collect_args; cbv zeta;
            rewrite Hv; by intros [= <-]).
      rewrite collect_args_vector in Hraise; [done|].
      intros v' Hv'. rewrite Hv in Hv'. injection Hv' as <-. by exists s.
    + rewrite collect_args_vector in Hraise; [done|].
      intros v' Hv'. by rewrite Hv in Hv'.
  - intros (v & Hv & Hns & ->). unfold collect_args. cbv zeta. rewrite Hv.
    destruct v as [| b | z | s]; try reflexivity. by destruct (Hns s).
Qed.

Lemma collect_call_run E port a σ :
  call_tool E port "donpapi_collect" a σ
  = (args ← collect_args a;
     result ← run_donpapi_command E args None;
     Ok [text_content (json_dumps E result)], σ).
Proof.
  unfold call_tool. rewrite decide_True by done.
  rewrite bind_run. unfold lift. destruct (collect_args a) as [args|e]; [|done].
  rewrite bind_run. simpl.
  by destruct (run_donpapi_command E args None).
Qed.

End DispatchErrors.

(** X1: for a bundle of [None], booleans, integers and strings whose
    integers, like the configured port, are within the interpreter's limit
    on digits (beyond it [str] itself raises), the only way a call raises
    is a collect whose [targets] is present and is not a string; the
    exception is then the [AttributeError] of the missing [split]
    attribute, naming the type of the value. *)
Theorem call_tool_raises_iff (E : os_env) (port : Z) (name : string)
    (a : dict) (σ : machine) (e : exc) :
  str_defined (VInt port) →
  map_Forall (λ _ v, str_defined v) a →
  (call_tool E port name a σ).1 = Raise e
  ↔ name = "donpapi_collect"
    ∧ ∃ v, a !! "targets" = Some v ∧ (∀ s, v ≠ VStr s)
           ∧ e = Exc AttributeError
                   ("'" +:+ type_name v +:+ "' object has no attribute 'split'").
Proof.
  intros _ _.
  destruct (decide (name = "donpapi_collect")) as [-> | Hc].
  - rewrite collect_call_run. simpl. rewrite <- collect_args_raise_iff.
    destruct (collect_args a) as [args|e']; simpl.
    + destruct (run_donpapi_command_total E args None) as [r ->]. simpl.
      split; [done | by intros [_ ?]].
    + split; [by intros [= ->] | by intros [_ [= ->]]].
  - split; [|by intros [? _]]. intros Hraise. exfalso. revert Hraise.
    destruct (decide (name = "donpapi_start_gui")) as [-> | Hs].
    { destruct (guard σ) eqn:Hg; [by rewrite start_branch_guarded|].
      destruct (Popen E (start_gui_cmd (bind_of a) (port_of port a)))
        as [e'|] eqn:Hp.
      - by rewrite (start_branch_fails _ _ _ _ e').
      - by rewrite start_branch_spawns. }
    destruct (decide (name = "donpapi_stop_gui")) as [-> | Ht].
    { destruct (gui_process σ) as [h|] eqn:Hh.
      - by rewrite (stop_branch_tracked _ _ _ _ h).
      - by rewrite stop_branch_unset. }
    by rewrite unknown_keeps_state.
Qed.

Lemma call_tool_raises_iff_witness :
  let a : dict := {[ "username" := VStr "admin"; "targets" := VInt 5 ]} in
  let e := Exc AttributeError "'int' object has no attribute 'split'" in
  str_defined (VInt 8088)
  ∧ map_Forall (λ _ v, str_defined v) a
  ∧ (call_tool quiet_env 8088 "donpapi_collect" a initial).1 = Raise e.
Proof.
  intros a e.
  assert (Hport : str_defined (VInt 8088)) by by_eval.
  assert (Hvals : map_Forall (λ _ v, str_defined v) a) by by_eval.
  split; [exact Hport|]. split; [exact Hvals|].
  apply (proj2 (call_tool_raises_iff quiet_env 8088 "donpapi_collect" a
                  initial e Hport Hvals)).
  split; [reflexivity|]. exists (VInt 5).
  split; [reflexivity|]. split; [discriminate | reflexivity].
Defined.

(** ** What one call may change *)

(** X2: a call never alters or drops the record of a process: it appends
    at most one, and only as the newly tracked handle; it asks for the
    termination of nothing but the handle tracked when it began; and a call
    that is neither a start nor a stop changes nothing at all, whatever the
    subprocess does. *)
Theorem call_tool_frame (E : os_env) (port : Z) (name : string) (a : dict)
    (σ : machine) :
  let σ' := (call_tool E port name a σ).2 in
  (procs σ' = procs σ
   ∨ ∃ p, procs σ' = procs σ ++ [p] ∧ p_returncode p = None
          ∧ gui_process σ' = Some (length (procs σ))
          ∧ name = "donpapi_start_gui")
  ∧ (terminate_calls σ' = terminate_calls σ
     ∨ ∃ h, gui_process σ = Some h ∧ name = "donpapi_stop_gui"
            ∧ terminate_calls σ' = terminate_calls σ ++ [h])
  ∧ (name ≠ "donpapi_start_gui" → name ≠ "donpapi_stop_gui" → σ' = σ).
Proof.
  intros σ'. subst σ'.
  destruct (decide (name = "donpapi_collect")) as [-> | Hc].
  { rewrite collect_keeps_state. split; [by left|]. split; [by left | done]. }
  destruct (decide (name = "donpapi_start_gui")) as [-> | Hs].
  { split; [|split; [|done]].
    - destruct (guard σ) eqn:Hg; [left; by rewrite start_branch_guarded|].
      destruct (Popen E (start_gui_cmd (bind_of a) (port_of port a)))
        as [e'|] eqn:Hp.
      + left. by rewrite (start_branch_fails _ _ _ _ e').
      + right. rewrite start_branch_spawns by done. by eexists.
    - left. destruct (guard σ) eqn:Hg; [by rewrite start_branch_guarded|].
      destruct (Popen E (start_gui_cmd (bind_of a) (port_of port a)))
        as [e'|] eqn:Hp.
      + by rewrite (start_branch_fails _ _ _ _ e').
      + by rewrite start_branch_spawns. }
  destruct (decide (name = "donpapi_stop_gui")) as [-> | Ht].
  { destruct (gui_process σ) as [h|] eqn:Hh.
    - rewrite (stop_branch_tracked _ _ _ _ h) by done.
      split; [by left|]. split; [|done]. right. by exists h.
    - rewrite stop_branch_unset by done.
      split; [by left|]. split; [by left | done]. }
  rewrite unknown_keeps_state by done.
  split; [by left|]. split; [by left | done].
Qed.

(** ** Invariants of the runs *)

Section RunInvariants.

Implicit Types (E : os_env) (σ : machine) (a : dict) (h : nat).

(** The state after a call, with the command line of a spawn made
    explicit. *)
Lemma call_tool_next E port name a σ :
  let σ' := (call_tool E port name a σ).2 in
  σ' = σ
  ∨ σ' = started (start_gui_cmd (bind_of a) (port_of port a)) σ
  ∨ (∃ h, gui_process σ = Some h ∧ σ' = stopped h σ).
Proof.
  intros σ'. subst σ'.
  destruct (decide (name = "donpapi_collect")) as [-> | Hc].
  { left. apply collect_keeps_state. }
  destruct (decide (name = "donpapi_start_gui")) as [-> | Hs].
  { destruct (guard σ) eqn:Hg; [left; by rewrite start_branch_guarded|].
    destruct (Popen E (start_gui_cmd (bind_of a) (port_of port a)))
      as [e|] eqn:Hp.
    - left. by rewrite (start_branch_fails _ _ _ _ e).
    - right; left. by rewrite start_branch_spawns. }
  destruct (decide (name = "donpapi_stop_gui")) as [-> | Ht].
  { destruct (gui_process σ) as [h|] eqn:Hh.
    - right; right. exists h. by rewrite (stop_branch_tracked _ _ _ _ h).
    - left. by rewrite stop_branch_unset. }
  left. by rewrite unknown_keeps_state.
Qed.

Lemma terminate_discipline_step σ σ' :
  step σ σ' → terminate_discipline σ → terminate_discipline σ'.
Proof.
  intros [E port name a σ0 r σ1 Hcall | h code p σ0 _ _] (Hnd & Hin & Htr).
  - pose proof (call_tool_next E port name a σ0) as Hnext.
    rewrite Hcall in Hnext. simpl in Hnext.
    destruct Hnext as [-> | [-> | [h [Hh ->]]]]; [done | |].
    + split; [done|]. simpl. split.
      * intros h Hh. apply Hin in Hh. rewrite length_app. simpl. lia.
      * intros h [= <-]. rewrite length_app. simpl. split; [|lia].
        intros Hh. apply Hin in Hh. lia.
    + destruct (Htr h Hh) as [Hfresh Hlt]. simpl. split; [|split; [|done]].
      * apply NoDup_app. split; [done|]. split; [|apply NoDup_singleton].
        intros x Hx Hx'. apply list_elem_of_singleton in Hx' as ->. done.
      * intros x Hx. apply elem_of_app in Hx as [Hx | Hx]; [by apply Hin|].
        by apply list_elem_of_singleton in Hx as ->.
  - split; [done|]. simpl. rewrite length_alter. by split.
Qed.

Lemma gui_command_lines_step σ σ' :
  step σ σ' → gui_command_lines σ → gui_command_lines σ'.
Proof.
  intros [E port name a σ0 r σ1 Hcall | h code p σ0 _ _] Hinv.
  - pose proof (call_tool_next E port name a σ0) as Hnext.
    rewrite Hcall in Hnext. simpl in Hnext.
    destruct Hnext as [-> | [-> | [h [Hh ->]]]]; [done | | done].
    intros p Hp. simpl in Hp. apply elem_of_app in Hp as [Hp | Hp].
    + by apply Hinv.
    + apply list_elem_of_singleton in Hp as ->. simpl. by do 2 eexists.
  - intros q Hq. simpl in Hq.
    apply list_elem_of_lookup in Hq as [i Hi].
    destruct (decide (h = i)) as [-> | Hne].
    + rewrite list_lookup_alter_eq in Hi.
      destruct (procs σ0 !! i) as [p0|] eqn:Hp0; [|done].
      simpl in Hi. injection Hi as <-. simpl.
      apply Hinv. apply list_elem_of_lookup. eauto.
    + rewrite list_lookup_alter_ne in Hi by done.
      apply Hinv. apply list_elem_of_lookup. eauto.
Qed.

End RunInvariants.

(** X3: in every state the adapter reaches, termination has been requested
    at most once per process, only of processes the adapter spawned, and
    never of the process that is still tracked. *)
Theorem reachable_terminate_discipline (σ : machine) :
  reachable σ →
  NoDup (terminate_calls σ)
  ∧ (∀ h, h ∈ terminate_calls σ → (h < length (procs σ))%nat)
  ∧ (∀ h, gui_process σ = Some h →
          (h ∉ terminate_calls σ) ∧ (h < length (procs σ))%nat).
Proof.
  unfold reachable. revert σ.
  apply (rtc_ind_r (λ σ, terminate_discipline σ)).
  - split; [apply NoDup_nil_2|]. split; [|done].
    intros h Hh. by apply elem_of_nil in Hh.
  - intros σ1 σ2 _ Hstep IH. by eapply terminate_discipline_step.
Qed.

Lemma reachable_terminate_discipline_witness :
  reachable stale_machine
  ∧ NoDup (terminate_calls stale_machine)
  ∧ (∀ h, h ∈ terminate_calls stale_machine →
          (h < length (procs stale_machine))%nat)
  ∧ (∀ h, gui_process stale_machine = Some h →
          (h ∉ terminate_calls stale_machine)
          ∧ (h < length (procs stale_machine))%nat).
Proof.
  split; [exact stale_machine_reachable|].
  exact (reachable_terminate_discipline stale_machine stale_machine_reachable).
Defined.

(** X4: every process the adapter has spawned with [Popen], in any state it
    reaches, runs the command line [donpapi gui --bind <bind> --port <port>],
    the port rendered as a string. *)
Theorem reachable_gui_command_lines (σ : machine) :
  reachable σ →
  ∀ p, p ∈ procs σ →
    ∃ bind port : pyval,
      p_args p = [VStr "donpapi"; VStr "gui"; VStr "--bind"; bind;
                  VStr "--port"; VStr (str port)].
Proof.
  unfold reachable. revert σ.
  apply (rtc_ind_r (λ σ, gui_command_lines σ)).
  - intros p Hp. by apply elem_of_nil in Hp.
  - intros σ1 σ2 _ Hstep IH. by eapply gui_command_lines_step.
Qed.

Lemma reachable_gui_command_lines_witness :
  reachable stale_machine
  ∧ ∀ p, p ∈ procs stale_machine →
      ∃ bind port : pyval,
        p_args p = [VStr "donpapi"; VStr "gui"; VStr "--bind"; bind;
                    VStr "--port"; VStr (str port)].
Proof.
  split; [exact stale_machine_reachable|].
  exact (reachable_gui_command_lines stale_machine stale_machine_reachable).
Defined.

(** ** Sequences of GUI operations *)

(** X5: a stop is idempotent: whatever the state, after one stop a second
    stop answers that the GUI is not running, requests no termination and
    changes nothing. *)
Theorem stop_twice (E E' : os_env) (port port' : Z) (a a' : dict)
    (σ : machine) :
  let σ1 := (call_tool E port "donpapi_stop_gui" a σ).2 in
  gui_process σ1 = None
  ∧ call_tool E' port' "donpapi_stop_gui" a' σ1
    = (Ok [text_content "GUI is not running."], σ1).
Proof.
  intros σ1. subst σ1.
  destruct (gui_process σ) as [h|] eqn:Hh.
  - rewrite (stop_branch_tracked E port a σ h Hh). simpl.
    split; [done|]. by apply stop_branch_unset.
  - rewrite (stop_branch_unset E port a σ Hh). simpl.
    split; [done|]. by apply stop_branch_unset.
Qed.

(** X6: from any state, when spawning succeeds, a start leaves a live
    tracked process, so that a start that follows at once answers
    "already running" and spawns nothing, whatever its parameters. *)
Theorem start_twice_guarded (E E' : os_env) (port port' : Z) (a a' : dict)
    (σ : machine) :
  Popen E (start_gui_cmd (bind_of a) (port_of port a)) = None →
  let σ1 := (call_tool E port "donpapi_start_gui" a σ).2 in
  (∃ h, gui_process σ1 = Some h ∧ alive σ1 h)
  ∧ call_tool E' port' "donpapi_start_gui" a' σ1
    = (Ok [text_content "GUI is already running."], σ1).
Proof.
  intros Hspawn σ1. subst σ1.
  assert (Hg1 : guard (call_tool E port "donpapi_start_gui" a σ).2 = true).
  { destruct (guard σ) eqn:Hg.
    - by rewrite start_branch_guarded.
    - rewrite start_branch_spawns by done. unfold guard, started. simpl.
      by rewrite lookup_app_r, Nat.sub_diag by done. }
  split; [|by apply start_branch_guarded].
  revert Hg1. unfold guard, alive.
  destruct (gui_process _) as [h|]; [|done].
  destruct (procs _ !! h ≫= p_returncode) eqn:Hrc; [done|].
  intros _. by exists h.
Qed.

Lemma start_twice_guarded_witness :
  Popen quiet_env (start_gui_cmd (bind_of ∅) (port_of 8088 ∅)) = None
  ∧ call_tool quiet_env 9000 "donpapi_start_gui" {[ "port" := VInt 9000 ]}
      (call_tool quiet_env 8088 "donpapi_start_gui" ∅ stale_machine).2
    = (Ok [text_content "GUI is already running."],
       (call_tool quiet_env 8088 "donpapi_start_gui" ∅ stale_machine).2).
Proof.
  split; [reflexivity|].
  exact (proj2 (start_twice_guarded quiet_env quiet_env 8088 9000 ∅
                  {[ "port" := VInt 9000 ]} stale_machine eq_refl)).
Defined.

(** X7: a stop does not wait for the process to exit.  When the tracked
    process is alive, a stop followed at once by a successful start leaves
    two processes running: the old one, whose termination was only
    requested and which is no longer tracked, and the new tracked one. *)
Theorem stop_start_overlap (E E' : os_env) (port port' : Z) (a a' : dict)
    (σ : machine) (h : nat) :
  gui_process σ = Some h →
  (h < length (procs σ))%nat →
  alive σ h →
  Popen E' (start_gui_cmd (bind_of a') (port_of port' a')) = None →
  let σ1 := (call_tool E port "donpapi_stop_gui" a σ).2 in
  let σ2 := (call_tool E' port' "donpapi_start_gui" a' σ1).2 in
  alive σ2 h
  ∧ alive σ2 (length (procs σ))
  ∧ h ≠ length (procs σ)
  ∧ gui_process σ2 = Some (length (procs σ))
  ∧ h ∈ terminate_calls σ2.
Proof.
  intros Hh Hlt Halive Hspawn σ1 σ2. subst σ2 σ1.
  rewrite (stop_branch_tracked E port a σ h Hh). simpl.
  rewrite start_branch_spawns by done. unfold alive, started. simpl.
  split; [by rewrite lookup_app_l|].
  split; [by rewrite lookup_app_r, Nat.sub_diag|].
  split; [lia|]. split; [done|].
  apply elem_of_app. right. by apply list_elem_of_singleton.
Qed.

Lemma stop_start_overlap_witness :
  gui_process running_machine = Some 0%nat
  ∧ (0 < length (procs running_machine))%nat
  ∧ alive running_machine 0
  ∧ Popen quiet_env (start_gui_cmd (bind_of ∅) (port_of 8088 ∅)) = None
  ∧ alive (call_tool quiet_env 8088 "donpapi_start_gui" ∅
             (call_tool quiet_env 8088 "donpapi_stop_gui" ∅
                running_machine).2).2 0
  ∧ alive (call_tool quiet_env 8088 "donpapi_start_gui" ∅
             (call_tool quiet_env 8088 "donpapi_stop_gui" ∅
                running_machine).2).2 1.
Proof.
  assert (Hlt : (0 < length (procs running_machine))%nat) by (simpl; lia).
  split; [reflexivity|]. split; [exact Hlt|]. split; [reflexivity|].
  split; [reflexivity|].
  destruct (stop_start_overlap quiet_env quiet_env 8088 8088 ∅ ∅
              running_machine 0 eq_refl Hlt eq_refl eq_refl)
    as (Hold & Hnew & _).
  split; [exact Hold | exact Hnew].
Defined.

(** ** Words of the targets and of the command string *)

Section Words.

Implicit Types (w l : list ascii) (s t : string).

Lemma run_is_word c w :
  Forall (λ c, isspace c = false) (c :: w) →
  word (string_of_list_ascii (rev (c :: w))).
Proof.
  intros Hw. split.
  - intros Hempty. apply (f_equal list_ascii_of_string) in Hempty.
    rewrite list_ascii_of_string_of_list_ascii in Hempty. simpl in Hempty.
    by destruct (rev w) in Hempty.
  - unfold no_space. rewrite list_ascii_of_string_of_list_ascii.
    by apply List.Forall_rev.
Qed.

Lemma split_go_words l w :
  Forall (λ c, isspace c = false) w →
  Forall word (split_go w l).
Proof.
  revert w. induction l as [|c l IH]; intros w Hw; simpl.
  - destruct w as [|c' w']; [done|].
    apply Forall_singleton. by apply run_is_word.
  - destruct (isspace c) eqn:Hc.
    + destruct w as [|c' w']; [by apply IH|]. apply Forall_cons. split.
      * by apply run_is_word.
      * by apply IH.
    + apply IH. by apply Forall_cons.
Qed.

Lemma split_go_nil l w :
  split_go w l = [] ↔ w = [] ∧ Forall (λ c, isspace c = true) l.
Proof.
  revert w. induction l as [|c l IH]; intros w; simpl.
  - destruct w; [by split | split; [done | by intros [? _]]].
  - destruct (isspace c) eqn:Hc.
    + destruct w as [|c' w'].
      * rewrite IH. split; intros [? Hl]; split; try done.
        -- by apply Forall_cons.
        -- by apply Forall_cons in Hl as [_ ?].
      * split; [done | by intros [? _]].
    + rewrite IH. split; [by intros [? _]|].
      intros [_ Hl]. apply Forall_cons in Hl as [Hc' _]. congruence.
Qed.

Lemma chars_app s t :
  list_ascii_of_string (s +:+ t)
  = list_ascii_of_string s ++ list_ascii_of_string t.
Proof.
  induction s as [|c s IH]; [done|].
  change (c :: list_ascii_of_string (s +:+ t)
          = c :: (list_ascii_of_string s ++ list_ascii_of_string t)).
  by rewrite IH.
Qed.

(** Reading a run of characters that are not white space only grows the
    current word. *)
Lemma split_go_run l w rest :
  Forall (λ c, isspace c = false) l →
  split_go w (l ++ rest) = split_go (rev l ++ w) rest.
Proof.
  revert w. induction l as [|c l IH]; intros w Hl; [done|].
  apply Forall_cons in Hl as [Hc Hl]. simpl. rewrite Hc, IH by done.
  by rewrite <- app_assoc.
Qed.

Lemma word_last_char t :
  t ≠ "" → ∃ c r, rev (list_ascii_of_string t) = c :: r.
Proof.
  destruct t as [|c t]; [done|]. intros _. simpl.
  destruct (rev (list_ascii_of_string t) ++ [c]) as [|c' r] eqn:Hrev.
  - by apply app_eq_nil in Hrev as [_ ?].
  - by exists c', r.
Qed.

Lemma split_join_words (t : string) (ts : list string) :
  Forall word (t :: ts) → split (join " " (t :: ts)) = t :: ts.
Proof.
  revert t. induction ts as [|t' ts IH]; intros t Hall;
    apply Forall_cons in Hall as [[Hne Hns] Hall]; unfold split in *;
    destruct (word_last_char t Hne) as (c & r & Hrev).
  - simpl. rewrite <- (app_nil_r (list_ascii_of_string t)).
    rewrite split_go_run, app_nil_r by done. simpl.
    rewrite Hrev, <- Hrev, rev_involutive.
    by rewrite string_of_list_ascii_of_string.
  - change (join " " (t :: t' :: ts)) with (t +:+ " " +:+ join " " (t' :: ts)).
    rewrite !chars_app, split_go_run, app_nil_r by done.
    change (list_ascii_of_string " ") with [" "%char]. simpl.
    rewrite Hrev, <- Hrev, rev_involutive, string_of_list_ascii_of_string.
    f_equal. by apply IH.
Qed.

End Words.

(** X8: what [targets] puts on the command line.  For a string [s], the
    vector holds [-t] followed by the words of [s], each of them not empty
    and free of white space, between the authentication part and the
    options; a [targets] that is empty or all white space gives a bare
    [-t] with no target after it, and only such a [targets] does. *)
Theorem targets_words (a : dict) (s : string) :
  a !! "targets" = Some (VStr s) →
  collect_args a
  = Ok ((auth_part a ++ kerberos_group a)
        ++ [VStr "-t"] ++ (VStr <$> split s)
        ++ (flag_group a "collectors" "-c" ++ threads_group a))
  ∧ Forall word (split s)
  ∧ (split s = [] ↔ all_space s).
Proof.
  intros Hs. split; [|split].
  - rewrite collect_args_vector.
    + rewrite collect_vector_parts. unfold options_part, targets_group,
        target_tokens. rewrite Hs. by rewrite <- !app_assoc.
    + intros v Hv. rewrite Hs in Hv. injection Hv as <-. by exists s.
  - by apply split_go_words.
  - unfold split, all_space. rewrite split_go_nil.
    split; [by intros [_ ?] | by intros ?].
Qed.

Lemma targets_words_witness :
  sample_bundle !! "targets" = Some (VStr "10.0.0.1 10.0.0.2")
  ∧ Forall word (split "10.0.0.1 10.0.0.2")
  ∧ (split "10.0.0.1 10.0.0.2" = [] ↔ all_space "10.0.0.1 10.0.0.2").
Proof.
  split; [reflexivity|].
  exact (proj2 (targets_words sample_bundle "10.0.0.1 10.0.0.2" eq_refl)).
Defined.

Example blank_targets :
  collect_args {[ "username" := VStr "admin"; "targets" := VStr "   " ]}
  = Ok (VStr <$> ["collect"; "-u"; "admin"; "-t"]).
Proof. by vm_compute. Qed.

(** X9: the command string can be read back when no argument needs
    quoting.  After a normal exit, if every argument is a word (not empty,
    free of white space), splitting the reported command at white space
    gives back "donpapi" and the arguments. *)
Theorem command_reads_back (E : os_env) (args : list string)
    (timeout : option Z) (rc : Z) (out err : string) :
  subprocess_run E (VStr <$> "donpapi" :: args) (default 600 timeout)
  = Completed rc out err →
  Forall word args →
  ∃ r command,
    run_donpapi_command E (VStr <$> args) timeout = Ok r
    ∧ r !! "command" = Some (VStr command)
    ∧ split command = "donpapi" :: args.
Proof.
  intros Hrun Hwords.
  exists ({[ "success" := VBool (rc =? 0); "stdout" := VStr out;
             "stderr" := VStr err;
             "command" := VStr (join " " ("donpapi" :: args)) ]} : dict),
         (join " " ("donpapi" :: args)).
  split; [|split].
  - unfold run_donpapi_command. cbv zeta.
    change (VStr "donpapi" :: (VStr <$> args))
      with (VStr <$> "donpapi" :: args).
    by rewrite Hrun, call_join_strings.
  - by vm_compute.
  - apply split_join_words. apply Forall_cons. split; [|done].
    split; [done | by_eval].
Qed.

Lemma command_reads_back_witness :
  subprocess_run quiet_env (VStr <$> "donpapi" :: ["collect"; "-u"; "admin"])
    (default 600 None)
  = Completed 0 "" ""
  ∧ Forall word ["collect"; "-u"; "admin"]
  ∧ ∃ r command,
      run_donpapi_command quiet_env (VStr <$> ["collect"; "-u"; "admin"]) None
      = Ok r
      ∧ r !! "command" = Some (VStr command)
      ∧ split command = "donpapi" :: ["collect"; "-u"; "admin"].
Proof.
  assert (Hwords : Forall word ["collect"; "-u"; "admin"]).
  { repeat (apply Forall_cons; split; [split; [done | by_eval]|]).
    apply Forall_nil_2. }
  split; [reflexivity|]. split; [exact Hwords|].
  exact (command_reads_back quiet_env ["collect"; "-u"; "admin"] None 0 "" ""
           eq_refl Hwords).
Defined.

(** The command string does not quote: an argument with a space in it reads
    back as two. *)
Example command_not_quoted :
  split (join " " ["donpapi"; "collect"; "-p"; "pass word"])
  = ["donpapi"; "collect"; "-p"; "pass"; "word"].
Proof. reflexivity. Qed.

(** ** The result of the command runner *)

Lemma join_items_ok (l : list pyval) (i : nat) (ss : list string) :
  join_items i l = Ok ss → l = VStr <$> ss.
Proof.
  revert i ss. induction l as [|v l IH]; intros i ss; simpl.
  - by intros [= <-].
  - destruct v as [| b | z | s]; try done.
    destruct (join_items (S i) l) as [ss'|e] eqn:Hl; simpl; [|done].
    intros [= <-]. by rewrite (IH _ _ Hl).
Qed.

(** X10: the runner reports success only for a run that really exited with
    code 0, and then the result carries the captured output and no error;
    a result carries an error message exactly when it carries no command
    string, and then its success is false. *)
Theorem success_is_sound (E : os_env) (cmd_args : list pyval)
    (timeout : option Z) (r : dict) :
  run_donpapi_command E cmd_args timeout = Ok r →
  (r !! "success" = Some (VBool true) →
   ∃ out err (args : list string),
     subprocess_run E (VStr "donpapi" :: cmd_args) (default 600 timeout)
     = Completed 0 out err
     ∧ cmd_args = VStr <$> args
     ∧ r !! "stdout" = Some (VStr out)
     ∧ r !! "stderr" = Some (VStr err)
     ∧ r !! "error" = None)
  ∧ (is_Some (r !! "error") ↔ r !! "command" = None)
  ∧ (is_Some (r !! "error") → r !! "success" = Some (VBool false)).
Proof.
  unfold run_donpapi_command. cbv zeta.
  destruct (subprocess_run E _ _) as [rc out err | e] eqn:Hrun.
  - unfold call_join.
    destruct (join_items 0 (VStr "donpapi" :: cmd_args)) as [ss|e] eqn:Hit;
      simpl.
    + intros [= <-]. split; [|split].
      * intros Hsucc. vm_compute in Hsucc.
        destruct rc as [|q|q]; try discriminate Hsucc.
        apply join_items_ok in Hit. destruct ss as [|s0 ss]; [done|].
        injection Hit as _ Hargs.
        exists out, err, ss. by repeat split.
      * split; [intros [x Hx]; by vm_compute in Hx | by vm_compute].
      * intros [x Hx]. by vm_compute in Hx.
    + destruct (exc_cls e); intros [= <-];
        (split; [by vm_compute|]; split; [|by vm_compute]);
        (split; [by vm_compute | intros _; by eexists]).
  - destruct (exc_cls e); intros [= <-];
      (split; [by vm_compute|]; split; [|by vm_compute]);
      (split; [by vm_compute | intros _; by eexists]).
Qed.

Lemma success_is_sound_witness :
  let r : dict :=
    {[ "success" := VBool true; "stdout" := VStr ""; "stderr" := VStr "";
       "command" := VStr "donpapi collect" ]} in
  run_donpapi_command quiet_env [VStr "collect"] None = Ok r
  ∧ (r !! "success" = Some (VBool true) →
     ∃ out err (args : list string),
       subprocess_run quiet_env (VStr "donpapi" :: [VStr "collect"])
         (default 600 None)
       = Completed 0 out err
       ∧ [VStr "collect"] = VStr <$> args
       ∧ r !! "stdout" = Some (VStr out)
       ∧ r !! "stderr" = Some (VStr err)
       ∧ r !! "error" = None)
  ∧ (is_Some (r !! "error") ↔ r !! "command" = None)
  ∧ (is_Some (r !! "error") → r !! "success" = Some (VBool false)).
Proof.
  intros r. split; [reflexivity|].
  exact (success_is_sound quiet_env [VStr "collect"] None r eq_refl).
Defined.

(** ** The registry and the dispatch *)

(** X11: the dispatch knows exactly the names the registry announces: a
    name gets the "Unknown tool" answer on every call if and only if it
    is not the name of a registered tool. *)
Theorem registry_matches_dispatch (name : string) :
  name ∈ tool_names
  ↔ ¬ (∀ (E : os_env) (port : Z) (a : dict) (σ : machine),
         call_tool E port name a σ = (Ok (unknown_answer name), σ)).
Proof.
  split.
  - intros Hin Hunknown.
    change tool_names
      with ["donpapi_collect"; "donpapi_start_gui"; "donpapi_stop_gui"] in Hin.
    rewrite !elem_of_cons in Hin.
    destruct Hin as [-> | [-> | [-> | Hin]]]; [| | |by apply elem_of_nil in Hin];
      specialize (Hunknown quiet_env 8088 ∅ initial); vm_compute in Hunknown;
      discriminate Hunknown.
  - intros Hknown. destruct (decide (name ∈ tool_names)) as [|Hout]; [done|].
    destruct Hknown. intros E port a σ. apply unknown_keeps_state;
      intros ->; apply Hout; by_eval.
Qed.

(** X12: a call depends on its bundle only through the parameters its tool
    declares: two bundles that agree on the declared parameters of a
    registered tool get the same answer and the same next state; keys the
    schema does not declare are ignored. *)
Theorem undeclared_parameters_ignored (E : os_env) (port : Z)
    (t : Registry.Tool) (a a' : dict) (σ : machine) :
  t ∈ Registry.list_tools →
  (∀ k, k ∈ declared t → a !! k = a' !! k) →
  call_tool E port (Registry.name t) a σ
  = call_tool E port (Registry.name t) a' σ.
Proof.
  intros Ht Hagree. unfold Registry.list_tools in Ht.
  rewrite !elem_of_cons in Ht.
  destruct Ht as [-> | [-> | [-> | Ht]]]; [| | |by apply elem_of_nil in Ht].
  - assert (Hk : ∀ k, k ∈ ["targets"; "domain"; "username"; "password";
                            "hashes"; "use_kerberos"; "collectors"; "threads"]
                 → a !! k = a' !! k) by done.
    simpl. rewrite !collect_call_run. f_equal.
    unfold collect_args. cbv zeta.
    rewrite (Hk "username"), (Hk "password"), (Hk "domain"), (Hk "hashes"),
      (Hk "use_kerberos"), (Hk "targets"), (Hk "collectors"), (Hk "threads")
      by by_eval.
    done.
  - assert (Hk : ∀ k, k ∈ ["port"; "bind"] → a !! k = a' !! k) by done.
    simpl. unfold call_tool.
    rewrite decide_False, decide_True by done.
    by rewrite (Hk "port"), (Hk "bind") by by_eval.
  - simpl. unfold call_tool. by rewrite !decide_False, decide_True by done.
Qed.

Lemma undeclared_parameters_ignored_witness :
  let start_tool :=
    {| Registry.name := "donpapi_start_gui";
       Registry.description :=
         "Start DonPAPI Web GUI to browse collected secrets";
       Registry.inputSchema :=
         {| Registry.schema_type := "object";
            Registry.properties :=
              [ ("port", Registry.defaulted "integer" (VInt 8088));
                ("bind", Registry.defaulted "string" (VStr "0.0.0.0")) ];
            Registry.required := None |} |} in
  let a : dict := {[ "bind" := VStr "127.0.0.1"; "browser" := VStr "yes" ]} in
  let a' : dict := {[ "bind" := VStr "127.0.0.1" ]} in
  start_tool ∈ Registry.list_tools
  ∧ (∀ k, k ∈ declared start_tool → a !! k = a' !! k)
  ∧ call_tool quiet_env 8088 "donpapi_start_gui" a initial
    = call_tool quiet_env 8088 "donpapi_start_gui" a' initial.
Proof.
  intros start_tool a a'.
  assert (Hin : start_tool ∈ Registry.list_tools) by by_eval.
  assert (Hagree : ∀ k, k ∈ declared start_tool → a !! k = a' !! k).
  { intros k Hk. change (declared start_tool) with ["port"; "bind"] in Hk.
    rewrite !elem_of_cons in Hk.
    destruct Hk as [-> | [-> | Hk]]; [by vm_compute | by vm_compute |].
    by apply elem_of_nil in Hk. }
  split; [exact Hin|]. split; [exact Hagree|].
  exact (undeclared_parameters_ignored quiet_env 8088 start_tool a a' initial
           Hin Hagree).
Defined.

(** ** Declared defaults against applied defaults *)

Section Defaults.

Implicit Types (E : os_env) (σ : machine) (a : dict) (t : Registry.Tool).

Lemma registered_start_tool t :
  t ∈ Registry.list_tools → Registry.name t = "donpapi_start_gui" →
  Registry.properties (Registry.inputSchema t)
  = [ ("port", Registry.defaulted "integer" (VInt 8088));
      ("bind", Registry.defaulted "string" (VStr "0.0.0.0")) ].
Proof.
  unfold Registry.list_tools. rewrite !elem_of_cons.
  intros [-> | [-> | [-> | Ht]]]; simpl; try done.
  by apply elem_of_nil in Ht.
Qed.

End Defaults.

(** X13: for a start, leaving a parameter out is the same as passing the
    default its schema declares, as long as the configured GUI port is the
    declared 8088 or the caller gives a port. *)
Theorem start_defaults_as_declared (E : os_env) (gui_port : Z)
    (t : Registry.Tool) (a : dict) (σ : machine) :
  t ∈ Registry.list_tools →
  Registry.name t = "donpapi_start_gui" →
  gui_port = 8088 ∨ is_Some (a !! "port") →
  call_tool E gui_port "donpapi_start_gui" (apply_defaults t a) σ
  = call_tool E gui_port "donpapi_start_gui" a σ.
Proof.
  intros Ht Hname Hport. unfold apply_defaults.
  rewrite (registered_start_tool t Ht Hname). simpl.
  unfold call_tool. rewrite decide_False, decide_True by done.
  destruct (a !! "port") as [p|] eqn:Hp, (a !! "bind") as [b|] eqn:Hb;
    repeat (rewrite lookup_insert_eq || rewrite lookup_insert_ne by done);
    rewrite ?Hp, ?Hb; simpl; try done.
  all: destruct Hport as [-> | [x Hx]]; [done | discriminate Hx].
Qed.

Lemma start_defaults_as_declared_witness :
  let start_tool :=
    {| Registry.name := "donpapi_start_gui";
       Registry.description :=
         "Start DonPAPI Web GUI to browse collected secrets";
       Registry.inputSchema :=
         {| Registry.schema_type := "object";
            Registry.properties :=
              [ ("port", Registry.defaulted "integer" (VInt 8088));
                ("bind", Registry.defaulted "string" (VStr "0.0.0.0")) ];
            Registry.required := None |} |} in
  start_tool ∈ Registry.list_tools
  ∧ call_tool quiet_env 8088 "donpapi_start_gui"
      (apply_defaults start_tool ∅) initial
    = call_tool quiet_env 8088 "donpapi_start_gui" ∅ initial.
Proof.
  intros start_tool.
  assert (Hin : start_tool ∈ Registry.list_tools) by by_eval.
  split; [exact Hin|].
  exact (start_defaults_as_declared quiet_env 8088 start_tool ∅ initial
           Hin eq_refl (or_introl eq_refl)).
Defined.

(** The declared port default is not the applied one when the environment
    configures another port. *)
Example start_default_port_overridden :
  (call_tool quiet_env 9090 "donpapi_start_gui" ∅ initial).1
  = Ok [text_content "DonPAPI GUI started on http://0.0.0.0:9090"].
Proof. reflexivity. Qed.

(** X14: the default the schema declares for [threads] is not applied by
    the adapter.  When [threads] is left out the vector has no [--threads]
    group at its end, while the bundle completed with the declared
    defaults gets the same vector followed by [--threads 50]. *)
Theorem threads_default_not_applied (t : Registry.Tool) (a : dict) :
  t ∈ Registry.list_tools →
  Registry.name t = "donpapi_collect" →
  targets_is_str a →
  a !! "threads" = None →
  ∃ args,
    collect_args a = Ok args
    ∧ threads_group a = []
    ∧ collect_args (apply_defaults t a)
      = Ok (args ++ [VStr "--threads"; VStr "50"]).
Proof.
  intros Ht Hname Hstr Hthreads. exists (collect_vector a).
  split; [by apply collect_args_vector|].
  split; [unfold threads_group; by rewrite Hthreads|].
  assert (Hdef : apply_defaults t a = <["threads" := VInt 50]> a).
  { revert Ht Hname. unfold Registry.list_tools. rewrite !elem_of_cons.
    intros [-> | [-> | [-> | Ht]]]; [|done|done|by apply elem_of_nil in Ht].
    intros _. unfold apply_defaults. simpl. by rewrite Hthreads. }
  rewrite Hdef, collect_args_vector.
  - f_equal. unfold collect_vector, flag_group, kerberos_group, targets_group,
      target_tokens, threads_group.
    rewrite lookup_insert_eq, !lookup_insert_ne, Hthreads by done.
    simpl. by rewrite <- ?app_assoc, ?app_nil_r.
  - intros v Hv. rewrite lookup_insert_ne in Hv by done. by apply Hstr.
Qed.

Lemma threads_default_not_applied_witness :
  let collect_tool := default (Registry.Build_Tool "" ""
                                 (Registry.Build_input_schema "" [] None))
                              (Registry.list_tools !! 0%nat) in
  collect_tool ∈ Registry.list_tools
  ∧ Registry.name collect_tool = "donpapi_collect"
  ∧ targets_is_str no_kerberos_bundle
  ∧ no_kerberos_bundle !! "threads" = None
  ∧ ∃ args,
      collect_args no_kerberos_bundle = Ok args
      ∧ threads_group no_kerberos_bundle = []
      ∧ collect_args (apply_defaults collect_tool no_kerberos_bundle)
        = Ok (args ++ [VStr "--threads"; VStr "50"]).
Proof.
  intros collect_tool.
  assert (Hin : collect_tool ∈ Registry.list_tools) by by_eval.
  assert (Hstr : targets_is_str no_kerberos_bundle).
  { intros v Hv. vm_compute in Hv. injection Hv as <-. by eexists. }
  split; [exact Hin|]. split; [reflexivity|]. split; [exact Hstr|].
  split; [reflexivity|].
  exact (threads_default_not_applied collect_tool no_kerberos_bundle
           Hin eq_refl Hstr eq_refl).
Defined.

(** ** Truth of the Kerberos parameter *)

(** X15: [-k] follows the truth value of [use_kerberos], not its type.
    For a bundle whose [targets] is a string: when the value is absent,
    [None], [False], [0] or the empty string, the vector is the one of the
    bundle without [use_kerberos]; when it is [True], an integer other
    than 0 or a string other than the empty one, the string "false"
    included, the vector is that one with [-k] put in after the
    authentication flags. *)
Theorem kerberos_truthiness (a : dict) :
  targets_is_str a →
  (a !! "use_kerberos" ∈ falsy_values →
   collect_args a = collect_args (delete "use_kerberos" a))
  ∧ (∀ v, a !! "use_kerberos" = Some v → counts_as_true v →
       collect_args a
       = Ok (auth_part a ++ [VStr "-k"] ++ options_part a)
       ∧ collect_args (delete "use_kerberos" a)
         = Ok (auth_part a ++ options_part a)).
Proof.
  intros Hstr.
  assert (Hstr' : targets_is_str (delete "use_kerberos" a)).
  { intros v Hv. rewrite lookup_delete_ne in Hv by done. by apply Hstr. }
  rewrite !collect_args_vector, !collect_vector_parts by done.
  destruct (parts_ignore_kerberos a) as [-> ->].
  assert (Hdel : kerberos_group (delete "use_kerberos" a) = []).
  { unfold kerberos_group. by rewrite lookup_delete_eq. }
  rewrite Hdel. unfold kerberos_group. split.
  - unfold falsy_values. rewrite !elem_of_cons.
    intros [-> | [-> | [-> | [-> | [-> | Hin]]]]]; try done.
    by apply elem_of_nil in Hin.
  - intros v -> [-> | [(z & -> & Hz) | (s & -> & Hs)]]; simpl.
    + done.
    + destruct (Z.eqb_spec z 0); [done|]. done.
    + destruct (String.eqb_spec s ""); [done|]. done.
Qed.

Lemma kerberos_truthiness_witness :
  let a : dict :=
    {[ "targets" := VStr "10.0.0.1"; "use_kerberos" := VStr "false" ]} in
  targets_is_str a
  ∧ a !! "use_kerberos" = Some (VStr "false")
  ∧ counts_as_true (VStr "false")
  ∧ collect_args a = Ok (auth_part a ++ [VStr "-k"] ++ options_part a)
  ∧ collect_args (delete "use_kerberos" a)
    = Ok (auth_part a ++ options_part a).
Proof.
  intros a.
  assert (Hstr : targets_is_str a).
  { intros v Hv. vm_compute in Hv. injection Hv as <-. by eexists. }
  assert (Htrue : counts_as_true (VStr "false")).
  { right; right. by exists "false". }
  split; [exact Hstr|]. split; [reflexivity|]. split; [exact Htrue|].
  exact (proj2 (kerberos_truthiness a Hstr) (VStr "false") eq_refl Htrue).
Defined.

Example kerberos_string_false :
  collect_args {[ "targets" := VStr "10.0.0.1"; "use_kerberos" := VStr "false" ]}
  = Ok (VStr <$> ["collect"; "-k"; "-t"; "10.0.0.1"]).
Proof. by vm_compute. Qed.

(** ** The configured GUI port *)

Section ConfiguredPort.

Implicit Types (l : list ascii) (x : N) (z : Z).

(** What [int] drops is white space for [isspace] too. *)
Lemma int_space_isspace (c : ascii) : int_space c = true → isspace c = true.
Proof. destruct c as [[] [] [] [] [] [] [] []]; by vm_compute. Qed.

(** A white-space character is no digit, sign or underscore. *)
Lemma space_not_numeral (c : ascii) :
  isspace c = true →
  is_digit c = false
  ∧ (nat_of_ascii c =? 45)%nat = false
  ∧ (nat_of_ascii c =? 43)%nat = false
  ∧ (nat_of_ascii c =? 95)%nat = false.
Proof. destruct c as [[] [] [] [] [] [] [] []]; by vm_compute. Qed.

Lemma lstrip_keeps (P : ascii → Prop) l : Forall P l → Forall P (lstrip l).
Proof.
  induction 1 as [|c l Hc Hl IH]; [done|]. simpl.
  destruct (int_space c); [done | by apply Forall_cons].
Qed.

Lemma strip_keeps (P : ascii → Prop) l : Forall P l → Forall P (strip l).
Proof.
  intros Hl. unfold strip. apply List.Forall_rev, lstrip_keeps.
  by apply List.Forall_rev, lstrip_keeps.
Qed.

Lemma lstrip_no_space l :
  Forall (λ c, isspace c = false) l → lstrip l = l.
Proof.
  destruct 1 as [|c l Hc _]; [done|]. simpl.
  destruct (int_space c) eqn:Hs; [|done].
  apply int_space_isspace in Hs. congruence.
Qed.

Lemma strip_no_space l :
  Forall (λ c, isspace c = false) l → strip l = l.
Proof.
  intros Hl. unfold strip. rewrite (lstrip_no_space l Hl).
  rewrite lstrip_no_space by (by apply List.Forall_rev).
  apply rev_involutive.
Qed.

(** A string of white space is no numeral, whichever part of it [int]
    drops. *)
Lemma int_all_space (s : string) : all_space s → int s = None.
Proof.
  intros Hblank. unfold int. cbv zeta.
  destruct (int_max_str_digits <? _); [done|].
  pose proof (strip_keeps _ _ Hblank) as Hkept.
  destruct (strip (list_ascii_of_string s)) as [|c l]; [done|].
  apply Forall_cons in Hkept as [Hc _].
  destruct (space_not_numeral c Hc) as (Hd & -> & -> & Hu).
  simpl. by rewrite Hd, Hu.
Qed.

Lemma digit_char (d : N) :
  (d < 10)%N →
  is_digit (pretty_N_char d) = true
  ∧ digit_val (pretty_N_char d) = Z.of_N d
  ∧ isspace (pretty_N_char d) = false.
Proof.
  intros Hd. destruct d as [|p]; [done|].
  do 4 (try destruct p as [p|p|]); (done || lia).
Qed.

(** Reading back the digits that [pretty] writes in front of [s]. *)
Lemma int_digits_pretty x :
  (0 < x)%N →
  ∀ s acc b,
    ∃ k, int_digits acc b (list_ascii_of_string (pretty_N_go x s))
         = int_digits (acc * 10 ^ k + Z.of_N x) true (list_ascii_of_string s)
         ∧ 0 ≤ k.
Proof.
  induction (N.lt_wf_0 x) as [x _ IH]. intros Hx s acc b.
  rewrite pretty_N_go_step by done.
  assert (Hmod : (x `mod` 10 < 10)%N) by (by apply N.mod_lt).
  destruct (digit_char _ Hmod) as (Hdig & Hval & _).
  pose proof (N.div_mod x 10 ltac:(done)) as Hdm.
  destruct (decide (x `div` 10 = 0)%N) as [Hz | Hnz].
  - rewrite Hz, pretty_N_go_0. exists 1. split; [|lia].
    cbn [list_ascii_of_string int_digits]. rewrite Hdig, Hval.
    f_equal. rewrite Z.pow_1_r. rewrite Hz in Hdm.
    set (m := (x `mod` 10)%N) in *. clearbody m. lia.
  - destruct (IH (x `div` 10)%N) with
      (s := String (pretty_N_char (x `mod` 10)) s) (acc := acc) (b := b)
      as (k & Hk & Hk0).
    + apply N.div_lt; [done | lia].
    + lia.
    + exists (k + 1). split; [|lia]. rewrite Hk.
      cbn [list_ascii_of_string int_digits]. rewrite Hdig, Hval.
      f_equal. rewrite Z.pow_add_r, Z.pow_1_r by lia.
      set (m := (x `mod` 10)%N) in *. set (q := (x `div` 10)%N) in *.
      set (pw := 10 ^ k). clearbody m q pw. lia.
Qed.

Lemma pretty_digits_no_space x s :
  Forall (λ c, isspace c = false) (list_ascii_of_string s) →
  Forall (λ c, isspace c = false) (list_ascii_of_string (pretty_N_go x s)).
Proof.
  revert s. induction (N.lt_wf_0 x) as [x _ IH]. intros s Hs.
  destruct (decide (0 < x)%N) as [Hx | Hx].
  - rewrite pretty_N_go_step by done. apply IH.
    + apply N.div_lt; [done | lia].
    + cbn [list_ascii_of_string]. apply Forall_cons. split; [|done].
      apply digit_char. by apply N.mod_lt.
  - assert (x = 0%N) as -> by lia. by rewrite pretty_N_go_0.
Qed.

Lemma pretty_head_digit x s :
  (0 < x)%N →
  ∃ c l, list_ascii_of_string (pretty_N_go x s) = c :: l
         ∧ is_digit c = true.
Proof.
  revert s. induction (N.lt_wf_0 x) as [x _ IH]. intros s Hx.
  rewrite pretty_N_go_step by done.
  destruct (decide (x `div` 10 = 0)%N) as [Hz | Hnz].
  - rewrite Hz, pretty_N_go_0. cbn [list_ascii_of_string].
    do 2 eexists. split; [done|]. apply digit_char. by apply N.mod_lt.
  - apply IH; [apply N.div_lt; [done | lia] | by apply N.neq_0_lt_0].
Qed.

(** A number below [10 ^ k] is written with at most [k] digits. *)
Lemma pretty_length_bound (k : nat) x s :
  Z.of_N x < 10 ^ Z.of_nat k →
  (length (list_ascii_of_string (pretty_N_go x s))
   ≤ k + length (list_ascii_of_string s))%nat.
Proof.
  revert x s. induction k as [|k IH]; intros x s Hx.
  - assert (x = 0%N) as -> by (simpl in Hx; lia).
    rewrite pretty_N_go_0. lia.
  - destruct (decide (0 < x)%N) as [Hpos | Hzero].
    + rewrite pretty_N_go_step by done.
      etrans; [apply IH|].
      * rewrite N2Z.inj_div. apply Z.div_lt_upper_bound; [done|].
        rewrite Nat2Z.inj_succ, Z.pow_succ_r in Hx by lia. exact Hx.
      * cbn [list_ascii_of_string length]. lia.
    + assert (x = 0%N) as -> by lia. rewrite pretty_N_go_0. lia.
Qed.

Lemma pretty_digit_count (p : positive) :
  Z.pos p < 10 ^ int_max_str_digits →
  (int_max_str_digits
   <? Z.of_nat (length (List.filter is_digit
                          (list_ascii_of_string (pretty_N_go (N.pos p) "")))))
  = false.
Proof.
  intros Hp. apply Z.ltb_ge.
  pose proof (pretty_length_bound (Z.to_nat int_max_str_digits) (N.pos p) "")
    as Hlen.
  rewrite Z2Nat.id in Hlen by done.
  specialize (Hlen Hp).
  change (length (list_ascii_of_string "")) with 0%nat in Hlen.
  pose proof (List.filter_length_le is_digit
                (list_ascii_of_string (pretty_N_go (N.pos p) ""))) as Hfil.
  unfold int_max_str_digits in *. lia.
Qed.

Lemma int_pretty_pos (p : positive) :
  Z.pos p < 10 ^ int_max_str_digits →
  int (pretty (Z.pos p)) = Some (Z.pos p)
  ∧ int (pretty (Z.neg p)) = Some (Z.neg p).
Proof.
  intros Hp.
  assert (Hx : (0 < N.pos p)%N) by lia.
  assert (Hns : Forall (λ c, isspace c = false)
                  (list_ascii_of_string (pretty_N_go (N.pos p) ""))).
  { apply pretty_digits_no_space. constructor. }
  pose proof (pretty_digit_count p Hp) as Hcount.
  destruct (int_digits_pretty _ Hx "" 0 false) as (k & Hk & _).
  cbn [list_ascii_of_string int_digits] in Hk.
  replace (0 * 10 ^ k + Z.of_N (N.pos p)) with (Z.pos p) in Hk by lia.
  split.
  - change (pretty (Z.pos p)) with (pretty_N_go (N.pos p) "").
    unfold int. cbv zeta. rewrite strip_no_space, Hcount by done.
    destruct (pretty_head_digit _ "" Hx) as (c & l & Hcl & Hc).
    rewrite Hcl in Hk |- *.
    assert (Hc45 : (nat_of_ascii c =? 45)%nat = false
                   ∧ (nat_of_ascii c =? 43)%nat = false).
    { revert Hc. unfold is_digit. cbv zeta.
      destruct (Nat.leb_spec 48 (nat_of_ascii c)); [|done]. intros _.
      split; apply Nat.eqb_neq; lia. }
    destruct Hc45 as [-> ->]. exact Hk.
  - change (pretty (Z.neg p)) with ("-" +:+ pretty_N_go (N.pos p) "").
    unfold int. cbv zeta.
    change (list_ascii_of_string ("-" +:+ pretty_N_go (N.pos p) ""))
      with ("-"%char :: list_ascii_of_string (pretty_N_go (N.pos p) "")).
    rewrite strip_no_space by (by apply Forall_cons).
    change (List.filter is_digit
              ("-"%char :: list_ascii_of_string (pretty_N_go (N.pos p) "")))
      with (List.filter is_digit
              (list_ascii_of_string (pretty_N_go (N.pos p) ""))).
    rewrite Hcount.
    change (nat_of_ascii "-" =? 45)%nat with true. cbv iota.
    by rewrite Hk.
Qed.

(** Below the limit on digits, [int] reads back what [str] writes. *)
Lemma int_str_round_trip z :
  str_defined (VInt z) → int (str (VInt z)) = Some z.
Proof.
  simpl. intros Hz. destruct z as [|p|p]; [done | |].
  - apply int_pretty_pos. lia.
  - apply int_pretty_pos. lia.
Qed.

End ConfiguredPort.

(** The edges of [int]: a numeral of 4300 digits is read, one of 4301 is
    refused; a code point 28 before the digits is not dropped, a
    no-break space is. *)
Example int_digit_limit :
  is_Some (int (string_of_list_ascii (repeat "1"%char 4300)))
  ∧ int (string_of_list_ascii (repeat "1"%char 4301)) = None
  ∧ int (string_of_list_ascii (repeat "0"%char 4301)) = None.
Proof.
  split; [|split]; [|by vm_compute..].
  destruct (int (string_of_list_ascii (repeat "1"%char 4300))) eqn:Hint;
    [by eexists|].
  vm_compute in Hint. discriminate Hint.
Qed.

Example int_white_space :
  int (String (ascii_of_nat 28) "8088") = None
  ∧ int (String (ascii_of_nat 160) "8088") = Some 8088
  ∧ int (String (ascii_of_nat 9) "8088 ") = Some 8088.
Proof. repeat split; by vm_compute. Qed.

(** X16: a [DONPAPI_GUI_PORT] that is set but empty or blank is not
    replaced by the default 8088: the conversion raises and the module
    does not load. *)
Theorem blank_port_setting_rejected (environ : gmap string string)
    (s : string) :
  environ !! "DONPAPI_GUI_PORT" = Some s →
  all_space s →
  GUI_PORT environ = None.
Proof.
  intros Hset Hblank. unfold GUI_PORT. rewrite Hset. simpl.
  by apply int_all_space.
Qed.

Lemma blank_port_setting_rejected_witness :
  ({[ "DONPAPI_GUI_PORT" := " " ]} : gmap string string) !! "DONPAPI_GUI_PORT"
  = Some " "
  ∧ all_space " "
  ∧ GUI_PORT {[ "DONPAPI_GUI_PORT" := " " ]} = None.
Proof.
  assert (Hblank : all_space " ") by (by repeat constructor).
  split; [reflexivity|]. split; [exact Hblank|].
  exact (blank_port_setting_rejected {[ "DONPAPI_GUI_PORT" := " " ]} " "
           eq_refl Hblank).
Defined.

(** X17: a port configured in the environment reaches the GUI command line
    unchanged and unchecked.  For every integer [z] of at most 4300 digits
    (the interpreter's limit on numerals), negative or beyond 65535
    included, when [DONPAPI_GUI_PORT] is the decimal writing of [z] the
    configured port is [z], and a start without [port] spawns with the
    same decimal writing after [--port]. *)
Theorem configured_port_round_trip (E : os_env)
    (environ : gmap string string) (z : Z) (a : dict) (σ : machine) :
  str_defined (VInt z) →
  environ !! "DONPAPI_GUI_PORT" = Some (str (VInt z)) →
  a !! "port" = None →
  guard σ = false →
  Popen E [VStr "donpapi"; VStr "gui"; VStr "--bind"; bind_of a;
           VStr "--port"; VStr (str (VInt z))] = None →
  GUI_PORT environ = Some z
  ∧ procs (call_tool E z "donpapi_start_gui" a σ).2
    = procs σ
      ++ [{| p_args := [VStr "donpapi"; VStr "gui"; VStr "--bind"; bind_of a;
                        VStr "--port"; VStr (str (VInt z))];
             p_returncode := None |}].
Proof.
  intros Hlimit Hset Hport Hg Hspawn. split.
  - unfold GUI_PORT. rewrite Hset. simpl. by apply int_str_round_trip.
  - assert (Hp : port_of z a = VInt z) by (unfold port_of; by rewrite Hport).
    rewrite start_branch_spawns; rewrite ?Hp; done.
Qed.

Lemma port_70000_defined : str_defined (VInt 70000).
Proof. by_eval. Defined.

Lemma configured_port_round_trip_witness :
  str_defined (VInt 70000)
  ∧ ({[ "DONPAPI_GUI_PORT" := "70000" ]} : gmap string string)
      !! "DONPAPI_GUI_PORT" = Some (str (VInt 70000))
  ∧ (∅ : dict) !! "port" = None
  ∧ guard initial = false
  ∧ GUI_PORT {[ "DONPAPI_GUI_PORT" := "70000" ]} = Some 70000
  ∧ procs (call_tool quiet_env 70000 "donpapi_start_gui" ∅ initial).2
    = [{| p_args := VStr <$> ["donpapi"; "gui"; "--bind"; "0.0.0.0";
                               "--port"; "70000"];
          p_returncode := None |}].
Proof.
  split; [exact port_70000_defined|].
  split; [reflexivity|]. split; [reflexivity|]. split; [reflexivity|].
  exact (configured_port_round_trip quiet_env
           {[ "DONPAPI_GUI_PORT" := "70000" ]} 70000 ∅ initial
           port_70000_defined eq_refl eq_refl eq_refl eq_refl).
Defined.
